(** * SFO runway tracker: a shallow embedding of [utilities/overhead.py]

    The module polls a flight feed around SFO, classifies every aircraft as
    landing or taking off, assigns it to the nearest threshold of the active
    runway pair and publishes the records through a lock-protected tracker
    object.

    Modelling conventions.
    - Python [float] coordinates and distances are binary64 floats, the
      primitive [float] of Rocq: a decimal literal is the nearest float,
      [-], [+], [<], [<=] are the IEEE operations and [float('inf')] is
      [infinity].  [math.sqrt] is the correctly rounded root, raising
      [ValueError] outside its domain.  What [x ** 2] returns is decided by
      the C library's [pow], which the module does not fix: it is the
      parameter [float_pow] of the section [Platform], and all that is
      proved holds whatever that library computes.
    - Python [int] feed values (altitude, vertical speed, heading) are [Z].
    - An attribute that [hasattr] may find missing is an [option] field,
      and a [hasattr] test is a match on it.
    - The four runway identifiers (the keys of [RUNWAY_28_THRESHOLD]) are the
      constructors of [Runway]; [runway_id] gives back the source string.
    - Exceptions are values of [exn], the classes that [except Exception]
      catches; effectful code lives in the monad [M] of the section
      [Cycle], which threads the provider's state and the tracker object
      and collects the externally visible events.
    - [grab_data] only starts [_grab_data] on a thread of its own; the
      thread body is what is modelled.  A [with self._lock] block is one
      indivisible write, and no other thread runs in between. *)

From Stdlib Require Import ZArith List String Bool Arith Lia Floats.
From Stdlib Require Import Permutation.
From ExtLib Require Import Structures.Monad Structures.MonadExc.
From ExtLib Require Import Data.Monads.EitherMonad.
Import ListNotations.
Import MonadNotation.

Set Warnings "-register-all,-inexact-float".

Local Open Scope string_scope.

(** ** Flight observations *)

Record Flight : Type := mkFlight {
  callsign       : option string;
  latitude       : option float;
  longitude      : option float;
  altitude       : option Z;
  vertical_speed : option Z;
  heading        : option Z
}.

(** ** Module constants *)

Definition SFO_LAT : float := 37.6213.
Definition SFO_LON : float := -122.3790.

Record Zone : Type := mkZone {
  tl_y : float; tl_x : float; br_y : float; br_x : float
}.

Definition SFO_ZONE : Zone :=
  {| tl_y := (SFO_LAT + 0.1)%float;
     tl_x := (SFO_LON - 0.1)%float;
     br_y := (SFO_LAT - 0.1)%float;
     br_x := (SFO_LON + 0.1)%float |}.

Inductive Runway : Type := R28L | R28R | R10L | R10R.

Definition runway_id (r : Runway) : string :=
  match r with
  | R28L => "28L" | R28R => "28R" | R10L => "10L" | R10R => "10R"
  end.

Record Threshold : Type := mkThreshold { lat : float; lon : float }.

Definition RUNWAY_28_THRESHOLD (runway : Runway) : Threshold :=
  match runway with
  | R28L => {| lat := 37.6161; lon := -122.3580 |}
  | R28R => {| lat := 37.6188; lon := -122.3530 |}
  | R10L => {| lat := 37.6213; lon := -122.3790 |}
  | R10R => {| lat := 37.6191; lon := -122.3795 |}
  end.

Definition MAX_FLIGHT_LOOKUP : nat := 10.
Definition LANDING_ALTITUDE_THRESHOLD : Z := 1000.
Definition TAKEOFF_ALTITUDE_THRESHOLD : Z := 3000.
Definition RUNWAY_PROXIMITY_THRESHOLD : float := 0.01.
Definition RETRIES : nat := 3.
Definition RATE_LIMIT_DELAY : Z := 1.

(** ** Output records and the tracker object *)

Inductive Operation : Type := Landing | Takeoff.

(** Values found in the provider's detail payload (decoded JSON). *)
Inductive pyval : Type :=
| PyNone
| PyBool (b : bool)
| PyInt (n : Z)
| PyStr (s : string)
| PyList (l : list pyval)
| PyDict (items : list (string * pyval)).

Record OperationRecord : Type := mkRecord {
  rec_callsign       : string;
  rec_operation      : Operation;
  rec_runway         : Runway;
  rec_aircraft       : pyval;
  rec_airline        : pyval;
  rec_altitude       : Z;
  rec_vertical_speed : Z;
  rec_heading        : Z
}.

Record Tracker : Type := mkTracker {
  _data           : list OperationRecord;
  _new_data       : bool;
  _processing     : bool;
  _active_runways : list Runway
}.

(** [SFORunwayTracker.__init__] *)
Definition init : Tracker :=
  {| _data := [];
     _new_data := false;
     _processing := false;
     _active_runways := [R28L; R28R] |}.

Definition set_active_runways (self : Tracker) (pair : list Runway) : Tracker :=
  {| _data := _data self;
     _new_data := _new_data self;
     _processing := _processing self;
     _active_runways := pair |}.

(** ** Runway configuration *)

Definition in_west_band (h : Z) : bool := ((260 <=? h) && (h <=? 300))%Z.
Definition in_east_band (h : Z) : bool := ((80 <=? h) && (h <=? 120))%Z.

(** One iteration of the counting loop; the accumulator is
    [(west_operations, east_operations)]. *)
Definition count_heading (acc : nat * nat) (flight : Flight) : nat * nat :=
  let '(west_operations, east_operations) := acc in
  match heading flight with
  | Some h =>
      if in_west_band h then (west_operations + 1, east_operations)
      else if in_east_band h then (west_operations, east_operations + 1)
      else (west_operations, east_operations)
  | None => (west_operations, east_operations)
  end.

Definition determine_runway_config (self : Tracker) (flights : list Flight)
  : Tracker :=
  let '(west_operations, east_operations) :=
    fold_left count_heading flights (0, 0) in
  if (west_operations <? east_operations)%nat
  then set_active_runways self [R10L; R10R]
  else set_active_runways self [R28L; R28R].

(** The counts as the specification words them. *)
Definition heading_in (band : Z -> bool) (flight : Flight) : bool :=
  match heading flight with Some h => band h | None => false end.

Definition west_count (flights : list Flight) : nat :=
  List.length (filter (heading_in in_west_band) flights).

Definition east_count (flights : list Flight) : nat :=
  List.length (filter (heading_in in_east_band) flights).

(** ** Operation classification *)

Definition determine_operation (flight : Flight) (prev_altitude : option Z)
  : option Operation :=
  match altitude flight, vertical_speed flight with
  | Some alt, Some vs =>
      if ((alt <=? LANDING_ALTITUDE_THRESHOLD) && (vs <? 0))%Z
      then Some Landing
      else if ((alt <=? TAKEOFF_ALTITUDE_THRESHOLD) && (0 <? vs))%Z
      then Some Takeoff
      else None
  | _, _ => None
  end.

(** ** Exceptions and the detail payload *)

Inductive exn : Type :=
| KeyError (what : string)
| AttributeError (what : string)
| OtherException (what : string).

(** The classes named by the inner [except (KeyError, AttributeError)]. *)
Definition field_absence (e : exn) : bool :=
  match e with
  | KeyError _ | AttributeError _ => true
  | OtherException _ => false
  end.

(** Pure code that may raise. *)
Definition result (A : Type) : Type := (exn + A)%type.

#[global] Instance Monad_result : Monad result := Monad_either exn.

Fixpoint assoc (key : string) (items : list (string * pyval)) : option pyval :=
  match items with
  | [] => None
  | (k, v) :: rest => if String.eqb k key then Some v else assoc key rest
  end.

(** [obj.get(key, default)]: only a dict has the method. *)
Definition py_get (obj : pyval) (key : string) (default : pyval) : result pyval :=
  match obj with
  | PyDict items =>
      match assoc key items with
      | Some v => inr v
      | None => inr default
      end
  | _ => inl (AttributeError "get")
  end.

(** [flight.<name>] for an attribute that may be missing. *)
Definition getattr {A : Type} (field : option A) (name : string) : result A :=
  match field with
  | Some v => inr v
  | None => inl (AttributeError name)
  end.

Local Open Scope monad_scope.

(** The dict display that builds [flight_data]; the entries are evaluated
    in the order of the source. *)
Definition flight_data (flight : Flight) (operation : Operation)
  (runway : Runway) (details : pyval) : result OperationRecord :=
  cs <- getattr (callsign flight) "callsign" ;;
  aircraft <- py_get details "aircraft" (PyDict []) ;;
  model <- py_get aircraft "model" (PyDict []) ;;
  code <- py_get model "code" (PyStr "Unknown") ;;
  airline <- py_get details "airline" (PyDict []) ;;
  name <- py_get airline "name" (PyStr "Unknown") ;;
  alt <- getattr (altitude flight) "altitude" ;;
  vs <- getattr (vertical_speed flight) "vertical_speed" ;;
  hd <- getattr (heading flight) "heading" ;;
  ret {| rec_callsign := cs;
         rec_operation := operation;
         rec_runway := runway;
         rec_aircraft := code;
         rec_airline := name;
         rec_altitude := alt;
         rec_vertical_speed := vs;
         rec_heading := hd |}.

(** ** The provider, the events and the cycle monad *)

(** [FlightRadar24API]: a black box with a state of its own ([W]); every
    call may answer or raise.  [B] is what [get_bounds] hands to
    [get_flights]. *)
Record FlightRadar24API (W B : Type) : Type := mkAPI {
  get_bounds : Zone -> W -> result B * W;
  get_flights : B -> W -> result (list Flight) * W;
  get_flight_details : Flight -> W -> result pyval * W
}.

Arguments get_bounds {W B} _ _ _.
Arguments get_flights {W B} _ _ _.
Arguments get_flight_details {W B} _ _ _.

(** What a run does besides computing: provider calls, sleeps, the message
    of the outer handler, and every write to the tracker object.  A
    [with self._lock] block is one [ev_store], carrying the fields as the
    block leaves them: this is what another thread can observe. *)
Inductive Event : Type :=
| ev_get_bounds (zone : Zone)
| ev_get_flights
| ev_get_flight_details (flight : Flight)
| ev_sleep (seconds : Z)
| ev_print (e : exn)
| ev_store (self : Tracker).

Record State (W : Type) : Type := mkState { world : W; self : Tracker }.

Arguments mkState {W} _ _.
Arguments world {W} _.
Arguments self {W} _.

Definition set_new_data (t : Tracker) (b : bool) : Tracker :=
  {| _data := _data t;
     _new_data := b;
     _processing := _processing t;
     _active_runways := _active_runways t |}.

Definition set_processing (t : Tracker) (b : bool) : Tracker :=
  {| _data := _data t;
     _new_data := _new_data t;
     _processing := b;
     _active_runways := _active_runways t |}.

Definition set_data (t : Tracker) (data : list OperationRecord) : Tracker :=
  {| _data := data;
     _new_data := _new_data t;
     _processing := _processing t;
     _active_runways := _active_runways t |}.

(** ** Nearest runway *)

Section Platform.

(** [x ** y] on floats is the C library's [pow], and it raises
    [OverflowError] when the result is out of range.  [float_pow x y] is
    what the platform gives: a float, or nothing when the power raises. *)
Variable float_pow : float -> float -> option float.

Definition py_pow (x y : float) : result float :=
  match float_pow x y with
  | Some r => inr r
  | None => inl (OtherException "OverflowError")
  end.

(** [math.sqrt]: the correctly rounded root; a root that is not a number,
    of an argument that is one, raises [ValueError]. *)
Definition math_sqrt (x : float) : result float :=
  let r := sqrt x in
  if is_nan r && negb (is_nan x)
  then inl (OtherException "ValueError")
  else inr r.

(** The planar distance, in degrees, from a position to a runway threshold. *)
Definition distance (latitude longitude : float) (runway : Runway)
  : result float :=
  let threshold := RUNWAY_28_THRESHOLD runway in
  dlat2 <- py_pow (latitude - lat threshold)%float 2 ;;
  dlon2 <- py_pow (longitude - lon threshold)%float 2 ;;
  math_sqrt (dlat2 + dlon2)%float.

(** The comparison in the body of the search loop; the accumulator is
    [(closest_runway, min_distance)]. *)
Definition closer (acc : option Runway * float) (runway : Runway)
  (d : float) : option Runway * float :=
  let '(closest_runway, min_distance) := acc in
  if (d <? min_distance)%float then (Some runway, d)
  else (closest_runway, min_distance).

(** [for runway in self._active_runways: ...] *)
Fixpoint search (latitude longitude : float) (active : list Runway)
  (acc : option Runway * float) : result (option Runway * float) :=
  match active with
  | [] => ret acc
  | runway :: rest =>
      d <- distance latitude longitude runway ;;
      search latitude longitude rest (closer acc runway d)
  end.

Definition determine_runway (self : Tracker) (flight : Flight)
  : result (option Runway) :=
  match latitude flight, longitude flight with
  | Some la, Some lo =>
      found <- search la lo (_active_runways self) (None, infinity) ;;
      let '(closest_runway, min_distance) := found in
      if (min_distance <=? RUNWAY_PROXIMITY_THRESHOLD)%float
      then ret closest_runway
      else ret None
  | _, _ => ret None
  end.

Section Cycle.

Context {W B : Type}.
Variable api : FlightRadar24API W B.

(** A computation returns or raises, leaves a state behind in both cases
    (Python keeps the writes made before an exception) and emits events. *)
Definition M (A : Type) : Type :=
  State W -> result A * State W * list Event.

Definition M_ret {A : Type} (a : A) : M A :=
  fun s => (inr a, s, []).

Definition M_bind {A C : Type} (m : M A) (k : A -> M C) : M C :=
  fun s =>
    match m s with
    | (inr a, s1, t1) => let '(r, s2, t2) := k a s1 in (r, s2, (t1 ++ t2)%list)
    | (inl e, s1, t1) => (inl e, s1, t1)
    end.

Definition M_raise {A : Type} (e : exn) : M A :=
  fun s => (inl e, s, []).

Definition M_catch {A : Type} (m : M A) (handler : exn -> M A) : M A :=
  fun s =>
    match m s with
    | (inr a, s1, t1) => (inr a, s1, t1)
    | (inl e, s1, t1) =>
        let '(r, s2, t2) := handler e s1 in (r, s2, (t1 ++ t2)%list)
    end.

#[local] Instance Monad_M : Monad M :=
  {| ret := @M_ret; bind := @M_bind |}.

#[local] Instance Exception_M : MonadExc exn M :=
  {| raise := @M_raise; catch := @M_catch |}.

Definition lift {A : Type} (r : result A) : M A :=
  fun s => (r, s, []).

Definition emit (e : Event) : M unit :=
  fun s => (inr tt, s, [e]).

(** A call to the provider. *)
Definition call {A : Type} (e : Event) (f : W -> result A * W) : M A :=
  fun s =>
    let '(r, w) := f (world s) in
    (r, {| world := w; self := self s |}, [e]).

Definition get_self : M Tracker :=
  fun s => (inr (self s), s, []).

(** A write to the tracker's fields. *)
Definition update_self (body : Tracker -> Tracker) : M unit :=
  fun s =>
    let t := body (self s) in
    (inr tt, {| world := world s; self := t |}, [ev_store t]).

(** [with self._lock: body]: the assignments of [body] happen as one
    write. *)
Definition with_lock (body : Tracker -> Tracker) : M unit :=
  update_self body.

Definition sleep (seconds : Z) : M unit := emit (ev_sleep seconds).
Definition print (e : exn) : M unit := emit (ev_print e).

(** The body of the inner [try], up to its [break]. *)
Definition attempt (flight : Flight) (data : list OperationRecord)
  : M (list OperationRecord) :=
  details <- call (ev_get_flight_details flight)
                  (get_flight_details api flight) ;;
  self <- get_self ;;
  let operation := determine_operation flight None in
  runway <- lift (determine_runway self flight) ;;
  match operation, runway with
  | Some operation, Some runway =>
      fd <- lift (flight_data flight operation runway details) ;;
      ret (data ++ [fd])%list
  | _, _ => ret data
  end.

(** [while retries: try: ...; break except (KeyError, AttributeError): ...] *)
Fixpoint lookup_loop (flight : Flight) (data : list OperationRecord)
  (retries : nat) : M (list OperationRecord) :=
  match retries with
  | O => ret data
  | S retries' =>
      catch (attempt flight data)
            (fun e =>
               if field_absence e
               then sleep RATE_LIMIT_DELAY ;;
                    lookup_loop flight data retries'
               else raise e)
  end.

(** [for flight in flights[:MAX_FLIGHT_LOOKUP]: retries = RETRIES; ...] *)
Fixpoint for_each (flights : list Flight) (data : list OperationRecord)
  : M (list OperationRecord) :=
  match flights with
  | [] => ret data
  | flight :: rest =>
      data' <- lookup_loop flight data RETRIES ;;
      for_each rest data'
  end.

(** The outer [try] before its final lock block: everything that
    accumulates [data]. *)
Definition collect : M (list OperationRecord) :=
  bounds <- call (ev_get_bounds SFO_ZONE) (get_bounds api SFO_ZONE) ;;
  flights <- call ev_get_flights (get_flights api bounds) ;;
  update_self (fun self => determine_runway_config self flights) ;;
  for_each (firstn MAX_FLIGHT_LOOKUP flights) [].

Definition _grab_data : M unit :=
  with_lock (fun self => set_processing (set_new_data self false) true) ;;
  catch
    (data <- collect ;;
     with_lock (fun self =>
       set_data (set_processing (set_new_data self true) false) data))
    (fun e =>
       print e ;;
       with_lock (fun self =>
         set_processing (set_new_data self false) false)).

End Cycle.

(** ** Read accessors *)

(** Each property returns its value and the tracker it leaves behind. *)
Definition new_data (self : Tracker) : bool * Tracker :=
  (_new_data self, self).

Definition processing (self : Tracker) : bool * Tracker :=
  (_processing self, self).

Definition data (self : Tracker) : list OperationRecord * Tracker :=
  let self' := set_new_data self false in
  (_data self', self').

Definition active_runways (self : Tracker) : list Runway * Tracker :=
  (_active_runways self, self).

(** * Vocabulary of the properties *)

(** A record and the flight it was built from. *)
Definition built_from (self : Tracker) (flight : Flight) (r : OperationRecord)
  : Prop :=
  callsign flight = Some (rec_callsign r) /\
  altitude flight = Some (rec_altitude r) /\
  vertical_speed flight = Some (rec_vertical_speed r) /\
  heading flight = Some (rec_heading r) /\
  determine_operation flight None = Some (rec_operation r) /\
  determine_runway self flight = inr (Some (rec_runway r)).

(** The events of [k] failed attempts on [flight]. *)
Fixpoint retry_trace (flight : Flight) (k : nat) : list Event :=
  match k with
  | O => []
  | S k' =>
      ev_get_flight_details flight :: ev_sleep RATE_LIMIT_DELAY
        :: retry_trace flight k'
  end.

(** The flights handed to the detail lookup, in order, one per call. *)
Fixpoint lookups (tr : list Event) : list Flight :=
  match tr with
  | [] => []
  | ev_get_flight_details flight :: tr' => flight :: lookups tr'
  | _ :: tr' => lookups tr'
  end.

(** The tracker writes of a run, in order. *)
Fixpoint stores (tr : list Event) : list Tracker :=
  match tr with
  | [] => []
  | ev_store t :: tr' => t :: stores tr'
  | _ :: tr' => stores tr'
  end.

(** How a run of the retry loop ends after [k] failed attempts: the
    budget is spent and [data] comes back untouched, or one more attempt
    ended the loop. *)
Definition loop_outcome (flight : Flight) (data : list OperationRecord)
  (n : nat) (t : Tracker) (res : result (list OperationRecord))
  (tr : list Event) (k : nat) : Prop :=
  (k = n /\ tr = retry_trace flight n /\ res = inr data) \/
  ((k < n)%nat /\
   tr = (retry_trace flight k ++ [ev_get_flight_details flight])%list /\
   (res = inr data \/
    (exists fd, res = inr (data ++ [fd])%list /\ built_from t flight fd) \/
    (exists e, res = inl e /\ field_absence e = false))).

(** The flights that were looked up: a prefix of the list (all of it when
    the loop returns), each between once and [RETRIES] times. *)
Definition looked_up (flights : list Flight)
  (res : result (list OperationRecord)) (tr : list Event) : Prop :=
  exists (seen : list Flight) (ks : list nat),
    (exists rest, flights = seen ++ rest)%list /\
    List.length ks = List.length seen /\
    Forall (fun k => 1 <= k <= RETRIES)%nat ks /\
    lookups tr = flat_map (fun p => repeat (fst p) (snd p)) (combine seen ks) /\
    (forall data', res = inr data' -> seen = flights).

(** The records a loop added, each built from one of its flights. *)
Definition extends (t : Tracker) (flights : list Flight)
  (data data' : list OperationRecord) : Prop :=
  exists added : list OperationRecord,
    data' = (data ++ added)%list /\
    Forall (fun r => exists flight,
                In flight flights /\ built_from t flight r) added.

(** The tracker as the first lock block of a cycle leaves it. *)
Definition begin_cycle (t : Tracker) : Tracker :=
  set_processing (set_new_data t false) true.

(** The tracker as the closing lock block leaves it, on either path. *)
Definition end_cycle (t : Tracker) (res : result (list OperationRecord))
  : Tracker :=
  match res with
  | inr data => set_data (set_processing (set_new_data t true) false) data
  | inl _ => set_processing (set_new_data t false) false
  end.

Definition end_events (t : Tracker) (res : result (list OperationRecord))
  : list Event :=
  match res with
  | inr _ => [ev_store (end_cycle t res)]
  | inl e => [ev_print e; ev_store (end_cycle t res)]
  end.

(** What a run of [collect] did: the provider query raised before any
    write, or the configuration was set from all the flights and the loop
    ran over the first [MAX_FLIGHT_LOOKUP] of them. *)
Definition collected {W B : Type} (api : FlightRadar24API W B) (s : State W)
  (res : result (list OperationRecord)) (s' : State W) (tr : list Event)
  : Prop :=
  ((exists e, res = inl e) /\ self s' = self s /\ stores tr = [] /\
   lookups tr = []) \/
  (exists bounds w1 flights w2 tr',
      get_bounds api SFO_ZONE (world s) = (inr bounds, w1) /\
      get_flights api bounds w1 = (inr flights, w2) /\
      self s' = determine_runway_config (self s) flights /\
      tr = ev_get_bounds SFO_ZONE :: ev_get_flights
             :: ev_store (determine_runway_config (self s) flights) :: tr' /\
      stores tr' = [] /\
      looked_up (firstn MAX_FLIGHT_LOOKUP flights) res tr' /\
      (forall data, res = inr data ->
         extends (self s') (firstn MAX_FLIGHT_LOOKUP flights) [] data)).

(** Inside [collect] the result, the new-data flag and the processing
    flag are never written. *)
Definition same_result (t0 t : Tracker) : Prop :=
  _data t = _data t0 /\
  _new_data t = _new_data t0 /\
  _processing t = _processing t0.

(** The two runway configurations of the airport. *)
Definition fixed_pair (pair : list Runway) : Prop :=
  pair = [R28L; R28R] \/ pair = [R10L; R10R].

(** The tracker objects a consumer can ever see: the fresh one, every
    write of a cycle started from a visible one (the provider being in any
    state when the cycle starts), and what a read of [data] leaves. *)
Inductive observable {W B : Type} (api : FlightRadar24API W B)
  : Tracker -> Prop :=
| observable_init : observable api init
| observable_store (w : W) (t t' : Tracker) :
    observable api t ->
    In t' (stores (snd (_grab_data api {| world := w; self := t |}))) ->
    observable api t'
| observable_read (t : Tracker) :
    observable api t -> observable api (snd (data t)).

(** ** Floats in order *)

(** The place of a float on the line: none for a NaN, else a triple that
    compares lexicographically as the floats do. *)
Definition rank (x : spec_float) : option (Z * Z * Z) :=
  match x with
  | S754_nan => None
  | S754_infinity true => Some (-2, 0, 0)%Z
  | S754_infinity false => Some (2, 0, 0)%Z
  | S754_zero _ => Some (0, 0, 0)%Z
  | S754_finite true m e => Some (-1, - e, Zneg m)%Z
  | S754_finite false m e => Some (1, e, Zpos m)%Z
  end.

Definition place (x : float) : option (Z * Z * Z) := rank (Prim2SF x).

Definition lex_compare (a b : Z * Z * Z) : comparison :=
  let '(a1, a2, a3) := a in
  let '(b1, b2, b3) := b in
  match (a1 ?= b1)%Z with
  | Eq => match (a2 ?= b2)%Z with
          | Eq => (a3 ?= b3)%Z
          | c => c
          end
  | c => c
  end.

Definition place_compare (p q : option (Z * Z * Z)) : option comparison :=
  match p, q with
  | Some a, Some b => Some (lex_compare a b)
  | _, _ => None
  end.

(** A distance that the search loop can take up: one below
    [float('inf')], so neither a NaN nor infinite. *)
Definition usable (d : float) : bool := (d <? infinity)%float.

(** The lesser of two distances. *)
Definition least (d1 d2 : float) : float :=
  if (d1 <=? d2)%float then d1 else d2.

(** ** Sample flights and providers *)

(** A sample platform, for the runs below: its power is only ever asked
    for squares, and answers the correctly rounded product, raising when
    the square of a finite number overflows. *)
Definition rounded_pow (x y : float) : option float :=
  let r := (x * x)%float in
  if is_infinity r && negb (is_infinity x) then None else Some r.

(** On the 28L threshold, descending. *)
Definition landing_flight : Flight :=
  {| callsign := Some "UAL123";
     latitude := Some 37.6161%float;
     longitude := Some (-122.3580)%float;
     altitude := Some 500%Z;
     vertical_speed := Some (-10)%Z;
     heading := Some 280%Z |}.

(** The same aircraft, reported without a callsign. *)
Definition anonymous_flight : Flight :=
  {| callsign := None;
     latitude := Some 37.6161%float;
     longitude := Some (-122.3580)%float;
     altitude := Some 500%Z;
     vertical_speed := Some (-10)%Z;
     heading := Some 280%Z |}.

(** Reported with headings only. *)
Definition westbound : Flight :=
  {| callsign := Some "WEST";
     latitude := None;
     longitude := None;
     altitude := None;
     vertical_speed := None;
     heading := Some 270%Z |}.

Definition eastbound : Flight :=
  {| callsign := Some "EAST";
     latitude := None;
     longitude := None;
     altitude := None;
     vertical_speed := None;
     heading := Some 90%Z |}.

Definition full_details : pyval :=
  PyDict [("aircraft", PyDict [("model", PyDict [("code", PyStr "B738")])]);
          ("airline", PyDict [("name", PyStr "United Airlines")])].

(** A provider that answers the zone query with [flights] and every detail
    lookup with [full_details]; its state counts the detail lookups. *)
Definition api_serving (flights : list Flight) : FlightRadar24API nat unit :=
  {| get_bounds := fun _ w => (inr tt, w);
     get_flights := fun _ w => (inr flights, w);
     get_flight_details := fun _ w => (inr full_details, S w) |}.

(** A provider whose zone query raises. *)
Definition api_down : FlightRadar24API nat unit :=
  {| get_bounds := fun _ w => (inr tt, w);
     get_flights := fun _ w => (inl (OtherException "unreachable"), w);
     get_flight_details := fun _ w => (inr full_details, S w) |}.

Definition landing_record : OperationRecord :=
  {| rec_callsign := "UAL123";
     rec_operation := Landing;
     rec_runway := R28L;
     rec_aircraft := PyStr "B738";
     rec_airline := PyStr "United Airlines";
     rec_altitude := 500;
     rec_vertical_speed := -10;
     rec_heading := 280 |}.

(** A tracker holding the result of an earlier cycle. *)
Definition served : Tracker :=
  {| _data := [landing_record];
     _new_data := true;
     _processing := false;
     _active_runways := [R28L; R28R] |}.

(** The reading of "only a failed detail lookup triggers a retry": an
    attempt that ends in a retry had its detail lookup raise. *)
Definition retry_only_on_detail_failure {W B : Type}
  (api : FlightRadar24API W B) (flight : Flight)
  (data : list OperationRecord) (s : State W) : Prop :=
  forall (e : exn) (s1 : State W) (t1 : list Event),
    attempt api flight data s = (inl e, s1, t1) ->
    field_absence e = true ->
    exists e', fst (get_flight_details api flight (world s)) = inl e'.

(** ** Further vocabulary *)

(** A flight that the counting loop of [determine_runway_config] counts. *)
Definition counted (flight : Flight) : bool :=
  heading_in in_west_band flight || heading_in in_east_band flight.

(** Over the airport reference point, cruising. *)
Definition overflight : Flight :=
  {| callsign := Some "DAL456";
     latitude := Some 37.6213%float;
     longitude := Some (-122.3790)%float;
     altitude := Some 5000%Z;
     vertical_speed := Some 0%Z;
     heading := Some 100%Z |}.

(** Reported with a heading in neither band. *)
Definition southbound : Flight :=
  {| callsign := Some "SOUTH";
     latitude := None;
     longitude := None;
     altitude := None;
     vertical_speed := None;
     heading := Some 180%Z |}.

(** The value found by following [path] through nested dicts, if every key
    of the path is there. *)
Fixpoint at_path (obj : pyval) (path : list string) : option pyval :=
  match path with
  | [] => Some obj
  | key :: rest =>
      match obj with
      | PyDict items =>
          match assoc key items with
          | Some v => at_path v rest
          | None => None
          end
      | _ => None
      end
  end.

(** Whether the chain [obj.get(k1, {}).get(k2, {})...] can be evaluated:
    every value that a [.get] is called on is a dict.  A missing key ends
    the walk, the empty dict that stands in has all later keys missing. *)
Fixpoint gettable (obj : pyval) (path : list string) : bool :=
  match path with
  | [] => true
  | key :: rest =>
      match obj with
      | PyDict items =>
          match assoc key items with
          | Some v => gettable v rest
          | None => true
          end
      | _ => false
      end
  end.

Definition dig (obj : pyval) (path : list string) (default : pyval) : pyval :=
  match at_path obj path with
  | Some v => v
  | None => default
  end.

(** A payload that names the aircraft but neither its model nor the
    airline. *)
Definition bare_details : pyval :=
  PyDict [("aircraft", PyDict [("registration", PyStr "N12345")])].

(** The sleeps of a run, in order, by their length in seconds. *)
Fixpoint sleeps (tr : list Event) : list Z :=
  match tr with
  | [] => []
  | ev_sleep seconds :: tr' => seconds :: sleeps tr'
  | _ :: tr' => sleeps tr'
  end.

(** [l1] is [l2] with some elements left out. *)
Inductive subseq {A : Type} : list A -> list A -> Prop :=
| subseq_nil : subseq [] []
| subseq_skip (x : A) (l1 l2 : list A) :
    subseq l1 l2 -> subseq l1 (x :: l2)
| subseq_take (x : A) (l1 l2 : list A) :
    subseq l1 l2 -> subseq (x :: l1) (x :: l2).

(** A record whose altitude and vertical speed are those of its
    operation. *)
Definition operation_fits (r : OperationRecord) : Prop :=
  match rec_operation r with
  | Landing => (rec_altitude r <= 1000 /\ rec_vertical_speed r < 0)%Z
  | Takeoff => (rec_altitude r <= 3000 /\ 0 < rec_vertical_speed r)%Z
  end.

(** A provider that answers the zone query with [flights] and whose detail
    lookup breaks down. *)
Definition api_breaking (flights : list Flight) : FlightRadar24API nat unit :=
  {| get_bounds := fun _ w => (inr tt, w);
     get_flights := fun _ w => (inr flights, w);
     get_flight_details :=
       fun _ w => (inl (OtherException "connection reset"), S w) |}.

(** The outcome of a run, with another tracker in place of the one the
    run left. *)
Definition with_self {W A : Type} (t : Tracker)
  (run : result A * State W * list Event) : result A * State W * list Event :=
  (fst (fst run), {| world := world (snd (fst run)); self := t |}, snd run).
(** * Properties *)

(** ** Operation classification *)

(** C1. With both fields present, [determine_operation] answers Landing
    exactly when altitude <= 1000 and vertical speed < 0, Takeoff exactly
    when altitude <= 3000 and vertical speed > 0, and nothing in every other
    case (so above 3000 ft or at vertical speed 0); the order of the two
    tests does not show.  With a field absent it answers nothing. *)
Theorem determine_operation_spec (flight : Flight) (prev_altitude : option Z) :
  (forall alt vs : Z,
      altitude flight = Some alt ->
      vertical_speed flight = Some vs ->
      (determine_operation flight prev_altitude = Some Landing
         <-> (alt <= 1000 /\ vs < 0)%Z) /\
      (determine_operation flight prev_altitude = Some Takeoff
         <-> (alt <= 3000 /\ vs > 0)%Z) /\
      (determine_operation flight prev_altitude = None
         <-> ~ (alt <= 1000 /\ vs < 0)%Z /\ ~ (alt <= 3000 /\ vs > 0)%Z) /\
      ((alt > 3000 \/ vs = 0)%Z ->
         determine_operation flight prev_altitude = None)) /\
  (altitude flight = None \/ vertical_speed flight = None ->
     determine_operation flight prev_altitude = None).
Proof.
  split.
  - intros alt vs Ha Hv. unfold determine_operation.
    rewrite Ha, Hv.
    unfold LANDING_ALTITUDE_THRESHOLD, TAKEOFF_ALTITUDE_THRESHOLD.
    destruct (Z.leb_spec alt 1000), (Z.ltb_spec vs 0),
      (Z.leb_spec alt 3000), (Z.ltb_spec 0 vs); cbn;
      repeat split; intros; try discriminate; try reflexivity; try lia.
  - unfold determine_operation.
    intros [-> | ->]; [reflexivity |].
    destruct (altitude flight); reflexivity.
Qed.

Lemma determine_operation_spec_witness :
  determine_operation landing_flight None = Some Landing.
Proof.
  apply (proj1 (determine_operation_spec landing_flight None) 500%Z (-10)%Z);
    [reflexivity | reflexivity | lia].
Defined.

(** ** Runway configuration *)

Lemma fold_count_heading (flights : list Flight) (w e : nat) :
  fold_left count_heading flights (w, e)
  = (w + west_count flights, e + east_count flights)%nat.
Proof.
  revert w e.
  induction flights as [| flight rest IH]; intros w e.
  - cbn. f_equal; lia.
  - assert (Hstep : count_heading (w, e) flight
                    = ((if heading_in in_west_band flight then 1 else 0) + w,
                       (if heading_in in_east_band flight then 1 else 0) + e)%nat).
    { unfold count_heading, heading_in.
      destruct (heading flight) as [h |]; [| reflexivity].
      destruct (in_west_band h) eqn:Hw.
      - replace (in_east_band h) with false
          by (unfold in_west_band, in_east_band in *; lia).
        f_equal; lia.
      - destruct (in_east_band h); f_equal; lia. }
    cbn [fold_left]. rewrite Hstep, IH.
    unfold west_count, east_count. cbn [filter].
    destruct (heading_in in_west_band flight),
      (heading_in in_east_band flight); cbn [List.length]; f_equal; lia.
Qed.

(** C3. [determine_runway_config] counts the flights whose heading is in
    [260, 300] as west and those whose heading is in [80, 120] as east,
    skipping flights without a heading and headings in neither band; it
    selects 10L/10R exactly when the east count is strictly larger, and
    28L/28R otherwise (a tie included).  No other field is touched. *)
Theorem determine_runway_config_spec (self : Tracker) (flights : list Flight) :
  fold_left count_heading flights (0, 0)%nat
    = (west_count flights, east_count flights) /\
  (forall flight : Flight,
      (heading_in in_west_band flight = true
         <-> exists h, heading flight = Some h /\ (260 <= h <= 300)%Z) /\
      (heading_in in_east_band flight = true
         <-> exists h, heading flight = Some h /\ (80 <= h <= 120)%Z)) /\
  (_active_runways (determine_runway_config self flights) = [R10L; R10R]
     <-> (west_count flights < east_count flights)%nat) /\
  (_active_runways (determine_runway_config self flights) = [R28L; R28R]
     <-> (east_count flights <= west_count flights)%nat) /\
  _data (determine_runway_config self flights) = _data self /\
  _new_data (determine_runway_config self flights) = _new_data self /\
  _processing (determine_runway_config self flights) = _processing self.
Proof.
  assert (Hfold := fold_count_heading flights 0 0). cbn in Hfold.
  split; [exact Hfold |].
  split.
  { intros flight. unfold heading_in, in_west_band, in_east_band.
    destruct (heading flight) as [h |]; split; split.
    - intros H. exists h. split; [reflexivity | lia].
    - intros (h' & [= <-] & H). lia.
    - intros H. exists h. split; [reflexivity | lia].
    - intros (h' & [= <-] & H). lia.
    - discriminate.
    - intros (h' & [=] & _).
    - discriminate.
    - intros (h' & [=] & _). }
  unfold determine_runway_config. rewrite Hfold.
  destruct (Nat.ltb_spec (west_count flights) (east_count flights));
    cbn; repeat split; intros; try discriminate; try reflexivity; try lia.
Qed.

(** ** Reading the result *)

(** C6. Reading [data] returns the stored result and leaves the new-data
    flag false; reading again returns the same records, and the flag, as
    [new_data] reports it, is false after the first read and after the
    second.  Nothing else changes. *)
Theorem data_read_twice (self : Tracker) :
  fst (data self) = _data self /\
  fst (new_data (snd (data self))) = false /\
  fst (data (snd (data self))) = fst (data self) /\
  fst (new_data (snd (data (snd (data self))))) = false /\
  snd (data (snd (data self))) = snd (data self) /\
  _data (snd (data self)) = _data self /\
  _processing (snd (data self)) = _processing self /\
  _active_runways (snd (data self)) = _active_runways self.
Proof.
  unfold data, new_data, set_new_data. cbn. repeat split; reflexivity.
Qed.

(** ** Floats in order *)

Lemma SFcompare_rank (x y : spec_float) :
  SFcompare x y = place_compare (rank x) (rank y).
Proof.
  destruct x as [sx | sx | | sx mx ex], y as [sy | sy | | sy my ey];
    try destruct sx; try destruct sy; try reflexivity.
  cbn. destruct (Z.compare_spec ex ey), (Z.compare_spec (- ex) (- ey));
    try lia; try reflexivity.
Qed.

(** [<], [<=] and [==] on floats, read on their places. *)
Lemma ltb_place (x y : float) :
  (x <? y)%float
  = match place_compare (place x) (place y) with
    | Some Lt => true
    | _ => false
    end.
Proof.
  rewrite FloatAxioms.ltb_spec. unfold SFltb, place.
  now rewrite SFcompare_rank.
Qed.

Lemma leb_place (x y : float) :
  (x <=? y)%float
  = match place_compare (place x) (place y) with
    | Some (Lt | Eq) => true
    | _ => false
    end.
Proof.
  rewrite FloatAxioms.leb_spec. unfold SFleb, place.
  now rewrite SFcompare_rank.
Qed.

Lemma eqb_place (x y : float) :
  (x =? y)%float
  = match place_compare (place x) (place y) with
    | Some Eq => true
    | _ => false
    end.
Proof.
  rewrite FloatAxioms.eqb_spec. unfold SFeqb, place.
  now rewrite SFcompare_rank.
Qed.

Lemma place_infinity : place infinity = Some (2, 0, 0)%Z.
Proof. reflexivity. Qed.

Lemma place_threshold :
  place RUNWAY_PROXIMITY_THRESHOLD = Some (1, -59, 5764607523034235)%Z.
Proof. reflexivity. Qed.

(** Comparisons of floats, decided on their places. *)
Ltac float_order :=
  unfold usable, least in *;
  repeat rewrite ?ltb_place, ?leb_place, ?eqb_place,
    ?place_infinity, ?place_threshold in *;
  repeat match goal with
         | x : float |- _ =>
             generalize dependent (place x);
             let p := fresh "p" in
             intros p; destruct p as [[[? ?] ?] |]; clear x
         end;
  cbn [place_compare lex_compare] in *;
  repeat match goal with
         | |- context [(?a ?= ?b)%Z] => destruct (Z.compare_spec a b)
         | H : context [(?a ?= ?b)%Z] |- _ => destruct (Z.compare_spec a b)
         end;
  subst; cbn in *;
  try discriminate; try reflexivity; try lia; auto.

Lemma ltb_negb_leb (x y : float) :
  usable x = true -> usable y = true ->
  (y <? x)%float = negb (x <=? y)%float.
Proof. intros Hx Hy. float_order. Qed.

Lemma ltb_unusable (x y : float) :
  usable x = true -> usable y = false -> (y <? x)%float = false.
Proof. intros Hx Hy. float_order. Qed.

Lemma leb_threshold_usable (d : float) :
  (d <=? RUNWAY_PROXIMITY_THRESHOLD)%float = true -> usable d = true.
Proof. intros H. float_order. Qed.

Lemma eqb_leb (x y : float) :
  (x =? y)%float = true -> (x <=? y)%float = true.
Proof. intros H. float_order. Qed.

Lemma eqb_usable (x y : float) :
  (x =? y)%float = true -> usable x = usable y.
Proof. intros H. float_order. Qed.

Lemma least_leb (d1 d2 : float) :
  usable d1 = true -> usable d2 = true ->
  (least d1 d2 <=? d1)%float = true /\ (least d1 d2 <=? d2)%float = true.
Proof.
  intros H1 H2. unfold least.
  destruct (d1 <=? d2)%float eqn:H; split; float_order.
Qed.

(** ** Nearest runway *)

Lemma bind_inr {A C : Type} (a : A) (k : A -> result C) :
  bind (inr a : result A) k = k a.
Proof. reflexivity. Qed.

Lemma bind_inl {A C : Type} (e : exn) (k : A -> result C) :
  bind (inl e : result A) k = inl e.
Proof. reflexivity. Qed.

(** The search loop only ever proposes runways it iterated over. *)
Lemma search_In (la lo : float) (active : list Runway)
  (acc found : option Runway * float) (r : Runway) :
  search la lo active acc = inr found ->
  fst found = Some r ->
  fst acc = Some r \/ In r active.
Proof.
  revert acc.
  induction active as [| r0 rest IH]; intros [c m] Hs Hf; cbn [search] in Hs.
  - injection Hs as <-. now left.
  - destruct (distance la lo r0) as [e | d]; [discriminate |].
    rewrite bind_inr in Hs.
    destruct (IH _ Hs Hf) as [H | H]; [| now right; right].
    unfold closer in H. destruct (d <? m)%float; cbn in H.
    + injection H as ->. right. now left.
    + now left.
Qed.

Lemma determine_runway_In (self : Tracker) (flight : Flight) (r : Runway) :
  determine_runway self flight = inr (Some r) -> In r (_active_runways self).
Proof.
  unfold determine_runway.
  destruct (latitude flight) as [la |]; [| discriminate].
  destruct (longitude flight) as [lo |]; [| discriminate].
  destruct (search la lo (_active_runways self) (None, infinity))
    as [e | [c m]] eqn:Hs; [discriminate |].
  rewrite bind_inr.
  destruct (m <=? RUNWAY_PROXIMITY_THRESHOLD)%float; [| discriminate].
  intros [= ->].
  destruct (search_In _ _ _ _ _ r Hs eq_refl) as [H | H];
    [discriminate | exact H].
Qed.

(** The loop over a pair, written out. *)
Lemma determine_runway_pair (self : Tracker) (flight : Flight) (la lo : float)
  (r1 r2 : Runway) (d1 d2 : float) :
  latitude flight = Some la ->
  longitude flight = Some lo ->
  _active_runways self = [r1; r2] ->
  distance la lo r1 = inr d1 ->
  distance la lo r2 = inr d2 ->
  determine_runway self flight
  = inr (match usable d1, usable d2 with
         | true, true =>
             if (least d1 d2 <=? RUNWAY_PROXIMITY_THRESHOLD)%float
             then Some (if (d1 <=? d2)%float then r1 else r2)
             else None
         | true, false =>
             if (d1 <=? RUNWAY_PROXIMITY_THRESHOLD)%float
             then Some r1 else None
         | false, true =>
             if (d2 <=? RUNWAY_PROXIMITY_THRESHOLD)%float
             then Some r2 else None
         | false, false => None
         end).
Proof.
  intros Hla Hlo Hact H1 H2. unfold determine_runway.
  rewrite Hla, Hlo, Hact. cbn [search].
  rewrite H1, bind_inr, H2, bind_inr.
  cbn [bind ret Monad_result Monad_either].
  unfold closer at 2. fold (usable d1).
  destruct (usable d1) eqn:U1; unfold closer.
  - destruct (usable d2) eqn:U2.
    + rewrite (ltb_negb_leb d1 d2 U1 U2). unfold least.
      destruct (d1 <=? d2)%float; cbn [negb];
        match goal with
        | |- context [(?d <=? RUNWAY_PROXIMITY_THRESHOLD)%float] =>
            destruct (d <=? RUNWAY_PROXIMITY_THRESHOLD)%float; reflexivity
        end.
    + rewrite (ltb_unusable d1 d2 U1 U2).
      destruct (d1 <=? RUNWAY_PROXIMITY_THRESHOLD)%float; reflexivity.
  - fold (usable d2).
    destruct (usable d2).
    + destruct (d2 <=? RUNWAY_PROXIMITY_THRESHOLD)%float; reflexivity.
    + reflexivity.
Qed.

Lemma determine_runway_missing (self : Tracker) (flight : Flight) :
  latitude flight = None \/ longitude flight = None ->
  determine_runway self flight = inr None.
Proof.
  unfold determine_runway. intros [-> | ->]; [reflexivity |].
  destruct (latitude flight); reflexivity.
Qed.

Lemma distance_inr (la lo : float) (r : Runway) (d : float) :
  distance la lo r = inr d ->
  exists dlat2 dlon2 : float,
    float_pow (la - lat (RUNWAY_28_THRESHOLD r)) 2 = Some dlat2 /\
    float_pow (lo - lon (RUNWAY_28_THRESHOLD r)) 2 = Some dlon2 /\
    d = sqrt (dlat2 + dlon2).
Proof.
  unfold distance, py_pow. cbv zeta.
  destruct (float_pow (la - lat (RUNWAY_28_THRESHOLD r)) 2) as [a |];
    [| discriminate].
  rewrite bind_inr.
  destruct (float_pow (lo - lon (RUNWAY_28_THRESHOLD r)) 2) as [b |];
    [| discriminate].
  rewrite bind_inr. unfold math_sqrt. cbv zeta.
  destruct (is_nan (sqrt (a + b)) && negb (is_nan (a + b))); [discriminate |].
  intros [= <-]. exists a, b. repeat split; reflexivity.
Qed.

(** Measuring raises nothing that the retry loop catches. *)
Lemma distance_inl (la lo : float) (r : Runway) (e : exn) :
  distance la lo r = inl e -> field_absence e = false.
Proof.
  unfold distance, py_pow. cbv zeta.
  destruct (float_pow (la - lat (RUNWAY_28_THRESHOLD r)) 2) as [a |];
    [| now intros [= <-]].
  rewrite bind_inr.
  destruct (float_pow (lo - lon (RUNWAY_28_THRESHOLD r)) 2) as [b |];
    [| now intros [= <-]].
  rewrite bind_inr. unfold math_sqrt. cbv zeta.
  destruct (is_nan (sqrt (a + b)) && negb (is_nan (a + b)));
    [now intros [= <-] | discriminate].
Qed.

Lemma search_inl (la lo : float) (active : list Runway)
  (acc : option Runway * float) (e : exn) :
  search la lo active acc = inl e -> field_absence e = false.
Proof.
  revert acc.
  induction active as [| r0 rest IH]; intros acc Hs; cbn [search] in Hs.
  - discriminate.
  - destruct (distance la lo r0) as [e0 | d] eqn:Hd.
    + rewrite bind_inl in Hs. injection Hs as <-.
      exact (distance_inl _ _ _ _ Hd).
    + rewrite bind_inr in Hs. exact (IH _ Hs).
Qed.

Lemma determine_runway_inl (self : Tracker) (flight : Flight) (e : exn) :
  determine_runway self flight = inl e -> field_absence e = false.
Proof.
  unfold determine_runway.
  destruct (latitude flight) as [la |]; [| discriminate].
  destruct (longitude flight) as [lo |]; [| discriminate].
  destruct (search la lo (_active_runways self) (None, infinity))
    as [e0 | [c m]] eqn:Hs.
  - rewrite bind_inl. intros [= <-]. exact (search_inl _ _ _ _ _ Hs).
  - rewrite bind_inr.
    destruct (m <=? RUNWAY_PROXIMITY_THRESHOLD)%float; discriminate.
Qed.

(** C2. For a flight with a position and an active pair [r1; r2],
    [determine_runway] measures the planar Euclidean distance (the square
    root of the sum of the squared coordinate differences, in degrees, as
    computed in floating point) to the two thresholds of that pair and to
    nothing else; it answers the runway of least distance when that distance
    is at most 0.01 and nothing otherwise, and on equal distances it answers
    the first of the pair.  A distance that is not below infinity is never
    selected, and an error raised while measuring is raised by
    [determine_runway]. *)
Theorem determine_runway_spec (self : Tracker) (flight : Flight)
  (la lo : float) (r1 r2 : Runway) :
  latitude flight = Some la ->
  longitude flight = Some lo ->
  _active_runways self = [r1; r2] ->
  (forall (r : Runway) (d : float),
      distance la lo r = inr d ->
      exists dlat2 dlon2 : float,
        float_pow (la - lat (RUNWAY_28_THRESHOLD r)) 2 = Some dlat2 /\
        float_pow (lo - lon (RUNWAY_28_THRESHOLD r)) 2 = Some dlon2 /\
        d = sqrt (dlat2 + dlon2)) /\
  (forall d1 d2 : float,
      distance la lo r1 = inr d1 ->
      distance la lo r2 = inr d2 ->
      determine_runway self flight
      = inr (match usable d1, usable d2 with
             | true, true =>
                 if (least d1 d2 <=? RUNWAY_PROXIMITY_THRESHOLD)%float
                 then Some (if (d1 <=? d2)%float then r1 else r2)
                 else None
             | true, false =>
                 if (d1 <=? RUNWAY_PROXIMITY_THRESHOLD)%float
                 then Some r1 else None
             | false, true =>
                 if (d2 <=? RUNWAY_PROXIMITY_THRESHOLD)%float
                 then Some r2 else None
             | false, false => None
             end) /\
      (usable d1 = true -> usable d2 = true ->
       (least d1 d2 <=? d1)%float = true /\
       (least d1 d2 <=? d2)%float = true /\
       (determine_runway self flight = inr None
          <-> (least d1 d2 <=? RUNWAY_PROXIMITY_THRESHOLD)%float = false)) /\
      ((d1 =? d2)%float = true ->
       (d1 <=? RUNWAY_PROXIMITY_THRESHOLD)%float = true ->
       determine_runway self flight = inr (Some r1))) /\
  (forall e : exn,
      distance la lo r1 = inl e -> determine_runway self flight = inl e) /\
  (forall (d1 : float) (e : exn),
      distance la lo r1 = inr d1 ->
      distance la lo r2 = inl e ->
      determine_runway self flight = inl e).
Proof.
  intros Hla Hlo Hact.
  split; [exact (distance_inr la lo) |].
  split; [| split].
  - intros d1 d2 H1 H2.
    pose proof (determine_runway_pair self flight la lo r1 r2 d1 d2
                  Hla Hlo Hact H1 H2) as Heq.
    split; [exact Heq |]. split.
    + intros U1 U2. destruct (least_leb d1 d2 U1 U2) as [L1 L2].
      split; [exact L1 |]. split; [exact L2 |].
      rewrite Heq, U1, U2.
      destruct (least d1 d2 <=? RUNWAY_PROXIMITY_THRESHOLD)%float;
        split; intros H; try discriminate; reflexivity.
    + intros He Hle. rewrite Heq.
      pose proof (leb_threshold_usable d1 Hle) as U1.
      pose proof (eqb_usable d1 d2 He) as U2. rewrite U1 in U2.
      rewrite U1, <- U2. unfold least.
      rewrite (eqb_leb d1 d2 He), Hle. reflexivity.
  - intros e H1. unfold determine_runway.
    rewrite Hla, Hlo, Hact. cbn [search]. rewrite H1. reflexivity.
  - intros d1 e H1 H2. unfold determine_runway.
    rewrite Hla, Hlo, Hact. cbn [search].
    rewrite H1, bind_inr, H2. reflexivity.
Qed.

(** ** One attempt, the retry loop and the flight loop *)

Lemma flight_data_inr (flight : Flight) (operation : Operation)
  (runway : Runway) (details : pyval) (fd : OperationRecord) :
  flight_data flight operation runway details = inr fd ->
  callsign flight = Some (rec_callsign fd) /\
  altitude flight = Some (rec_altitude fd) /\
  vertical_speed flight = Some (rec_vertical_speed fd) /\
  heading flight = Some (rec_heading fd) /\
  rec_operation fd = operation /\
  rec_runway fd = runway.
Proof.
  unfold flight_data, getattr. cbn.
  destruct (callsign flight); [| discriminate].
  destruct (py_get details "aircraft" (PyDict [])) as [| aircraft];
    [discriminate |].
  destruct (py_get aircraft "model" (PyDict [])) as [| model];
    [discriminate |].
  destruct (py_get model "code" (PyStr "Unknown")); [discriminate |].
  destruct (py_get details "airline" (PyDict [])) as [| airline];
    [discriminate |].
  destruct (py_get airline "name" (PyStr "Unknown")); [discriminate |].
  destruct (altitude flight); [| discriminate].
  destruct (vertical_speed flight); [| discriminate].
  destruct (heading flight); [| discriminate].
  intros [= <-]. cbn. repeat split; reflexivity.
Qed.

Lemma py_get_inl (obj : pyval) (key : string) (default : pyval) (e : exn) :
  py_get obj key default = inl e -> exists name, e = AttributeError name.
Proof.
  unfold py_get.
  destruct obj; try (intros [= <-]; eauto).
  destruct (assoc key items); discriminate.
Qed.

Lemma getattr_inl {A : Type} (field : option A) (name : string) (e : exn) :
  getattr field name = inl e -> e = AttributeError name.
Proof.
  unfold getattr. destruct field; [discriminate | now intros [= <-]].
Qed.

(** Whatever [flight_data] raises is an [AttributeError]. *)
Lemma flight_data_inl (flight : Flight) (operation : Operation)
  (runway : Runway) (details : pyval) (e : exn) :
  flight_data flight operation runway details = inl e ->
  exists name, e = AttributeError name.
Proof.
  unfold flight_data. cbn.
  repeat match goal with
         | |- context [match getattr ?f ?n with _ => _ end] =>
             let H := fresh "H" in
             destruct (getattr f n) eqn:H;
             [apply getattr_inl in H; intros [= <-]; eauto |]
         | |- context [match py_get ?o ?k ?d with _ => _ end] =>
             let H := fresh "H" in
             destruct (py_get o k d) eqn:H;
             [apply py_get_inl in H; intros [= <-]; exact H |]
         end.
  discriminate.
Qed.

Lemma flight_data_missing (flight : Flight) (operation : Operation)
  (runway : Runway) (details : pyval) :
  callsign flight = None \/ altitude flight = None \/
  vertical_speed flight = None \/ heading flight = None ->
  exists name,
    flight_data flight operation runway details = inl (AttributeError name).
Proof.
  intros H.
  destruct (flight_data flight operation runway details) as [e | fd] eqn:Hfd.
  - destruct (flight_data_inl _ _ _ _ _ Hfd) as [name ->]. eauto.
  - apply flight_data_inr in Hfd.
    destruct Hfd as (Hc & Ha & Hv & Hh & _).
    destruct H as [H | [H | [H | H]]]; congruence.
Qed.

Lemma lookups_app (t1 t2 : list Event) :
  lookups (t1 ++ t2) = (lookups t1 ++ lookups t2)%list.
Proof.
  induction t1 as [| e t1 IH]; [reflexivity |].
  destruct e; cbn; rewrite IH; reflexivity.
Qed.

Lemma stores_app (t1 t2 : list Event) :
  stores (t1 ++ t2) = (stores t1 ++ stores t2)%list.
Proof.
  induction t1 as [| e t1 IH]; [reflexivity |].
  destruct e; cbn; rewrite IH; reflexivity.
Qed.

Lemma lookups_retry_trace (flight : Flight) (k : nat) :
  lookups (retry_trace flight k) = repeat flight k.
Proof. induction k; cbn; congruence. Qed.

Lemma stores_retry_trace (flight : Flight) (k : nat) :
  stores (retry_trace flight k) = [].
Proof. induction k; cbn; congruence. Qed.

Section CycleFacts.

Context {W B : Type}.
Variable api : FlightRadar24API W B.

(** [attempt], run: one detail lookup, then the pure part. *)
Lemma attempt_run (flight : Flight) (data : list OperationRecord)
  (s : State W) :
  attempt api flight data s
  = (match fst (get_flight_details api flight (world s)) with
     | inl e => inl e
     | inr details =>
         match determine_runway (self s) flight with
         | inl e => inl e
         | inr runway =>
             match determine_operation flight None, runway with
             | Some operation, Some runway =>
                 match flight_data flight operation runway details with
                 | inl e => inl e
                 | inr fd => inr (data ++ [fd])%list
                 end
             | _, _ => inr data
             end
         end
     end,
     {| world := snd (get_flight_details api flight (world s));
        self := self s |},
     [ev_get_flight_details flight]).
Proof.
  unfold attempt, call, get_self, lift.
  cbn [bind ret Monad_M]. unfold M_bind, M_ret.
  destruct (get_flight_details api flight (world s)) as [[e | details] w];
    cbn [fst snd self world]; [reflexivity |].
  destruct (determine_runway _ flight) as [e | [runway |]];
    [reflexivity | | destruct (determine_operation flight None); reflexivity].
  destruct (determine_operation flight None) as [operation |];
    [| reflexivity].
  destruct (flight_data flight operation runway details); reflexivity.
Qed.

Lemma lookup_loop_O (flight : Flight) (data : list OperationRecord)
  (s : State W) :
  lookup_loop api flight data 0 s = (inr data, s, []).
Proof. reflexivity. Qed.

(** One turn of the [while]: a returning attempt leaves the loop, a
    [KeyError] or [AttributeError] sleeps and goes round again, any other
    exception leaves the loop raising. *)
Lemma lookup_loop_S (flight : Flight) (data : list OperationRecord)
  (n : nat) (s : State W) :
  lookup_loop api flight data (S n) s
  = match attempt api flight data s with
    | (inr data', s1, t1) => (inr data', s1, t1)
    | (inl e, s1, t1) =>
        if field_absence e
        then (fst (fst (lookup_loop api flight data n s1)),
              snd (fst (lookup_loop api flight data n s1)),
              t1 ++ ev_sleep RATE_LIMIT_DELAY
                 :: snd (lookup_loop api flight data n s1))%list
        else (inl e, s1, t1)
    end.
Proof.
  cbn [lookup_loop]. cbn [catch Exception_M]. unfold M_catch.
  destruct (attempt api flight data s) as [[[e | data'] s1] t1];
    [| reflexivity].
  destruct (field_absence e).
  - unfold sleep, emit. cbn [bind Monad_M]. unfold M_bind.
    destruct (lookup_loop api flight data n s1) as [[r s2] t2].
    reflexivity.
  - cbn [raise Exception_M]. unfold M_raise.
    rewrite app_nil_r. reflexivity.
Qed.

Lemma loop_outcome_retry (flight : Flight) (data : list OperationRecord)
  (n : nat) (t : Tracker) (res : result (list OperationRecord))
  (tr : list Event) (k : nat) :
  loop_outcome flight data n t res tr k ->
  loop_outcome flight data (S n) t res
    (ev_get_flight_details flight :: ev_sleep RATE_LIMIT_DELAY :: tr) (S k).
Proof.
  intros [(-> & -> & ->) | (Hlt & -> & Hres)].
  - left. auto.
  - right. split; [lia |]. split; [reflexivity | exact Hres].
Qed.

Lemma lookup_loop_inv (flight : Flight) (data : list OperationRecord)
  (n : nat) (s : State W) (res : result (list OperationRecord))
  (s' : State W) (tr : list Event) :
  lookup_loop api flight data n s = (res, s', tr) ->
  self s' = self s /\
  exists k : nat, loop_outcome flight data n (self s) res tr k.
Proof.
  revert s res s' tr.
  induction n as [| n IH]; intros s res s' tr Hrun.
  - rewrite lookup_loop_O in Hrun. injection Hrun as <- <- <-.
    split; [reflexivity |]. exists 0%nat. left. auto.
  - rewrite lookup_loop_S, attempt_run in Hrun.
    set (s1 := {| world := snd (get_flight_details api flight (world s));
                  self := self s |}) in *.
    assert (Hretry :
      (fst (fst (lookup_loop api flight data n s1)),
       snd (fst (lookup_loop api flight data n s1)),
       ([ev_get_flight_details flight] ++ ev_sleep RATE_LIMIT_DELAY
          :: snd (lookup_loop api flight data n s1))%list)
      = (res, s', tr) ->
      self s' = self s /\
      exists k : nat, loop_outcome flight data (S n) (self s) res tr k).
    { intros Heq.
      destruct (lookup_loop api flight data n s1) as [[r s2] t2] eqn:Hrec.
      cbn [fst snd] in Heq. injection Heq as <- <- <-.
      apply IH in Hrec. destruct Hrec as [Hself [k Hk]].
      split; [exact Hself |].
      exists (S k). apply loop_outcome_retry. exact Hk. }
    assert (Hstop :
      forall r : result (list OperationRecord),
        (r, s1, [ev_get_flight_details flight]) = (res, s', tr) ->
        (r = inr data \/
         (exists fd, r = inr (data ++ [fd])%list /\
                     built_from (self s) flight fd) \/
         (exists e, r = inl e /\ field_absence e = false)) ->
        self s' = self s /\
        exists k : nat, loop_outcome flight data (S n) (self s) res tr k).
    { intros r Heq Hr. injection Heq as <- <- <-.
      split; [reflexivity |]. exists 0%nat. right.
      split; [lia |]. split; [reflexivity | exact Hr]. }
    destruct (fst (get_flight_details api flight (world s)))
      as [e | details].
    + destruct (field_absence e) eqn:He.
      * exact (Hretry Hrun).
      * apply (Hstop _ Hrun). right. right. eauto.
    + destruct (determine_runway (self s) flight) as [e | runway] eqn:Hrw.
      { pose proof (determine_runway_inl _ _ _ Hrw) as He.
        rewrite He in Hrun.
        apply (Hstop _ Hrun). right. right. eauto. }
      destruct (determine_operation flight None) as [operation |] eqn:Hop;
        [| apply (Hstop _ Hrun); auto].
      destruct runway as [runway |]; [| apply (Hstop _ Hrun); auto].
      destruct (flight_data flight operation runway details)
        as [e | fd] eqn:Hfd.
      * destruct (flight_data_inl _ _ _ _ _ Hfd) as [name ->].
        exact (Hretry Hrun).
      * apply (Hstop _ Hrun). right. left. exists fd.
        split; [reflexivity |].
        apply flight_data_inr in Hfd.
        destruct Hfd as (Hc & Ha & Hv & Hh & <- & <-).
        repeat split; assumption.
Qed.

Lemma loop_outcome_events (flight : Flight) (data : list OperationRecord)
  (n : nat) (t : Tracker) (res : result (list OperationRecord))
  (tr : list Event) (k : nat) :
  loop_outcome flight data n t res tr k ->
  (0 < n)%nat ->
  stores tr = [] /\
  exists a : nat, (1 <= a <= n)%nat /\ lookups tr = repeat flight a.
Proof.
  intros [(-> & -> & ->) | (Hlt & -> & Hres)] Hn.
  - split; [apply stores_retry_trace |].
    exists n. split; [lia | apply lookups_retry_trace].
  - split.
    + rewrite stores_app, stores_retry_trace. reflexivity.
    + exists (S k). split; [lia |].
      rewrite lookups_app, lookups_retry_trace. cbn.
      symmetry. apply repeat_cons.
Qed.

Lemma loop_outcome_data (flight : Flight) (data : list OperationRecord)
  (n : nat) (t : Tracker) (data' : list OperationRecord)
  (tr : list Event) (k : nat) :
  loop_outcome flight data n t (inr data') tr k ->
  data' = data \/
  exists fd, data' = (data ++ [fd])%list /\ built_from t flight fd.
Proof.
  intros [(_ & _ & [= ->]) | (_ & _ & [[= ->] | [(fd & [= ->] & H) | H]])].
  - now left.
  - now left.
  - right. eauto.
  - destruct H as (e & [=] & _).
Qed.

Lemma for_each_cons (flight : Flight) (rest : list Flight)
  (data : list OperationRecord) (s : State W) :
  for_each api (flight :: rest) data s
  = match lookup_loop api flight data RETRIES s with
    | (inr data', s1, t1) =>
        (fst (fst (for_each api rest data' s1)),
         snd (fst (for_each api rest data' s1)),
         t1 ++ snd (for_each api rest data' s1))%list
    | (inl e, s1, t1) => (inl e, s1, t1)
    end.
Proof.
  cbn [for_each]. cbn [bind Monad_M]. unfold M_bind.
  destruct (lookup_loop api flight data RETRIES s) as [[[e | data'] s1] t1];
    [reflexivity |].
  destruct (for_each api rest data' s1) as [[r s2] t2]. reflexivity.
Qed.

Lemma for_each_inv (flights : list Flight) (data : list OperationRecord)
  (s : State W) (res : result (list OperationRecord)) (s' : State W)
  (tr : list Event) :
  for_each api flights data s = (res, s', tr) ->
  self s' = self s /\
  stores tr = [] /\
  looked_up flights res tr /\
  (forall data', res = inr data' -> extends (self s) flights data data').
Proof.
  revert data s res s' tr.
  induction flights as [| flight rest IH]; intros data s res s' tr Hrun.
  - cbn in Hrun. unfold M_ret in Hrun. injection Hrun as <- <- <-.
    split; [reflexivity |]. split; [reflexivity |]. split.
    + exists [], []. cbn. repeat split; eauto.
    + intros data' [= <-]. exists []. rewrite app_nil_r. auto.
  - rewrite for_each_cons in Hrun.
    destruct (lookup_loop api flight data RETRIES s)
      as [[r1 s1] t1] eqn:Hloop.
    apply lookup_loop_inv in Hloop. destruct Hloop as [Hself [k Hk]].
    destruct (loop_outcome_events _ _ _ _ _ _ _ Hk) as [Hst (a & Ha & Hlk)];
      [unfold RETRIES; lia |].
    destruct r1 as [e | data1].
    + injection Hrun as <- <- <-.
      split; [exact Hself |]. split; [exact Hst |].
      split; [| discriminate].
      exists [flight], [a]. cbn. rewrite app_nil_r.
      repeat split; eauto; discriminate.
    + destruct (for_each api rest data1 s1) as [[r2 s2] t2] eqn:Hrest.
      cbn [fst snd] in Hrun. injection Hrun as <- <- <-.
      apply IH in Hrest.
      destruct Hrest as (Hself2 & Hst2 & Hseen & Hext).
      split; [congruence |].
      split; [rewrite stores_app, Hst, Hst2; reflexivity |].
      split.
      * destruct Hseen as (seen & ks & [rest' Hpre] & Hlen & Hks & Hl & Hall).
        exists (flight :: seen), (a :: ks). cbn.
        rewrite lookups_app, Hlk, Hl.
        repeat split; eauto.
        -- exists rest'. now rewrite Hpre.
        -- intros data' Hd. now rewrite (Hall data' Hd).
      * intros data' ->.
        destruct (Hext data' eq_refl) as (added & -> & Hadded).
        rewrite Hself in Hadded.
        assert (Hadded' :
          Forall (fun r => exists flight0,
                      In flight0 (flight :: rest)
                      /\ built_from (self s) flight0 r) added).
        { eapply Forall_impl; [| exact Hadded].
          cbn. intros r (f0 & Hin & Hb). eauto. }
        destruct (loop_outcome_data _ _ _ _ _ _ _ Hk)
          as [-> | (fd & -> & Hfd)].
        -- exists added. auto.
        -- exists (fd :: added). rewrite <- app_assoc. split; [reflexivity |].
           constructor; [| exact Hadded'].
           exists flight. split; [now left | exact Hfd].
Qed.

(** [collect], run: the two provider queries, the configuration write,
    then the loop over the truncated list. *)
Lemma collect_run (s : State W) :
  collect api s
  = match get_bounds api SFO_ZONE (world s) with
    | (inl e, w1) =>
        (inl e, {| world := w1; self := self s |},
         [ev_get_bounds SFO_ZONE])
    | (inr bounds, w1) =>
        match get_flights api bounds w1 with
        | (inl e, w2) =>
            (inl e, {| world := w2; self := self s |},
             [ev_get_bounds SFO_ZONE; ev_get_flights])
        | (inr flights, w2) =>
            let t := determine_runway_config (self s) flights in
            let run := for_each api (firstn MAX_FLIGHT_LOOKUP flights) []
                         {| world := w2; self := t |} in
            (fst (fst run), snd (fst run),
             ev_get_bounds SFO_ZONE :: ev_get_flights :: ev_store t
               :: snd run)
        end
    end.
Proof.
  unfold collect, call, update_self.
  cbn [bind Monad_M]. unfold M_bind.
  destruct (get_bounds api SFO_ZONE (world s)) as [[e | bounds] w1];
    [reflexivity |].
  cbn [world self].
  destruct (get_flights api bounds w1) as [[e | flights] w2];
    [reflexivity |].
  cbn [world self].
  destruct (for_each api (firstn MAX_FLIGHT_LOOKUP flights) [] _)
    as [[r s3] t3].
  reflexivity.
Qed.

Lemma grab_data_run (s : State W) :
  _grab_data api s
  = let run := collect api {| world := world s;
                              self := begin_cycle (self s) |} in
    let res := fst (fst run) in
    let s1 := snd (fst run) in
    (inr tt,
     {| world := world s1; self := end_cycle (self s1) res |},
     ev_store (begin_cycle (self s))
       :: snd run ++ end_events (self s1) res)%list.
Proof.
  unfold _grab_data, with_lock, update_self, print, emit.
  cbn [bind Monad_M catch Exception_M]. unfold M_bind, M_catch.
  cbv zeta. fold (begin_cycle (self s)).
  destruct (collect api _) as [[[e | data] s1] t1]; reflexivity.
Qed.

Lemma collect_inv (s : State W) (res : result (list OperationRecord))
  (s' : State W) (tr : list Event) :
  collect api s = (res, s', tr) -> collected api s res s' tr.
Proof.
  rewrite collect_run. intros Hrun.
  destruct (get_bounds api SFO_ZONE (world s)) as [[e | bounds] w1] eqn:Hb.
  { injection Hrun as <- <- <-. left. cbn. eauto. }
  destruct (get_flights api bounds w1) as [[e | flights] w2] eqn:Hf.
  { injection Hrun as <- <- <-. left. cbn. eauto. }
  cbv zeta in Hrun.
  destruct (for_each api (firstn MAX_FLIGHT_LOOKUP flights) [] _)
    as [[r s3] t3] eqn:Hloop.
  cbn [fst snd] in Hrun. injection Hrun as <- <- <-.
  apply for_each_inv in Hloop. cbn [self] in Hloop.
  destruct Hloop as (Hself & Hst & Hseen & Hext).
  right. exists bounds, w1, flights, w2, t3.
  rewrite Hself. repeat split; try assumption; try reflexivity.
Qed.

Lemma collect_stores (s : State W) (res : result (list OperationRecord))
  (s' : State W) (tr : list Event) :
  collect api s = (res, s', tr) ->
  Forall (same_result (self s)) (self s' :: stores tr).
Proof.
  intros Hrun. apply collect_inv in Hrun.
  destruct Hrun as [(_ & -> & -> & _)
                   | (b & w1 & fl & w2 & tr' & _ & _ & -> & -> & Hst & _)].
  - constructor; [unfold same_result; auto | constructor].
  - cbn [stores]. rewrite Hst.
    assert (same_result (self s) (determine_runway_config (self s) fl)).
    { unfold same_result, determine_runway_config.
      destruct (fold_left count_heading fl (0%nat, 0%nat)) as [w e].
      destruct (w <? e)%nat; cbn; auto. }
    constructor; [exact H | constructor; [exact H | constructor]].
Qed.

End CycleFacts.

(** ** The cycle and the tracker's result *)

(** C4. When the cycle raises (for one, when the provider query raises),
    [_grab_data] still returns normally: the handler prints and its lock
    block is the last write.  The stored result is then the one from before
    the cycle, the new-data flag and the processing flag are false, and no
    write of the whole run ever showed another result. *)
Theorem grab_data_failure {W B : Type} (api : FlightRadar24API W B)
  (s : State W) (e : exn) (s1 : State W) (tr1 : list Event) :
  collect api {| world := world s; self := begin_cycle (self s) |}
    = (inl e, s1, tr1) ->
  exists t' : Tracker,
    _grab_data api s
      = (inr tt, {| world := world s1; self := t' |},
         ev_store (begin_cycle (self s))
           :: tr1 ++ [ev_print e; ev_store t'])%list /\
    _data t' = _data (self s) /\
    _new_data t' = false /\
    _processing t' = false /\
    Forall (fun t => _data t = _data (self s))
           (stores (snd (_grab_data api s))).
Proof.
  intros Hrun.
  pose proof (collect_stores api _ _ _ _ Hrun) as Hst.
  cbn [self] in Hst. inversion Hst as [| t l [Hd _] Hrest]; subst.
  exists (end_cycle (self s1) (inl e)).
  rewrite grab_data_run, Hrun. cbn [fst snd end_events end_cycle].
  split; [reflexivity |].
  split; [exact Hd |]. split; [reflexivity |]. split; [reflexivity |].
  cbn [stores]. rewrite stores_app. cbn [stores].
  constructor; [reflexivity |].
  apply Forall_app. split.
  - eapply Forall_impl; [| exact Hrest]. intros t [H _]. exact H.
  - constructor; [exact Hd | constructor].
Qed.

(** C5. When the cycle returns its accumulated [data] (empty or not), the
    closing lock block is the last write of the run: it stores [data], sets
    the new-data flag and clears the processing flag together.  Every
    earlier write of the run still showed the previous result with the
    new-data flag false and the processing flag true. *)
Theorem grab_data_success {W B : Type} (api : FlightRadar24API W B)
  (s : State W) (data : list OperationRecord) (s1 : State W)
  (tr1 : list Event) :
  collect api {| world := world s; self := begin_cycle (self s) |}
    = (inr data, s1, tr1) ->
  exists t' : Tracker,
    _grab_data api s
      = (inr tt, {| world := world s1; self := t' |},
         ev_store (begin_cycle (self s)) :: tr1 ++ [ev_store t'])%list /\
    _data t' = data /\
    _new_data t' = true /\
    _processing t' = false /\
    _active_runways t' = _active_runways (self s1) /\
    Forall (fun t => _data t = _data (self s) /\
                     _new_data t = false /\
                     _processing t = true)
           (begin_cycle (self s) :: stores tr1).
Proof.
  intros Hrun.
  pose proof (collect_stores api _ _ _ _ Hrun) as Hst.
  cbn [self] in Hst. inversion Hst as [| t l _ Hrest]; subst.
  exists (end_cycle (self s1) (inr data)).
  rewrite grab_data_run, Hrun. cbn [fst snd end_events end_cycle].
  repeat (split; [reflexivity |]).
  constructor; [cbn; auto |].
  eapply Forall_impl; [| exact Hrest].
  intros t (Hd & Hn & Hp). cbn in *. auto.
Qed.

(** ** The active pair *)

Lemma determine_runway_config_pair (t : Tracker) (flights : list Flight) :
  fixed_pair (_active_runways (determine_runway_config t flights)).
Proof.
  unfold determine_runway_config, fixed_pair.
  destruct (fold_left count_heading flights (0%nat, 0%nat)) as [w e].
  destruct (w <? e)%nat; cbn; auto.
Qed.

(** A cycle, taken apart: the first lock block, [collect], the closing
    lock block of the path taken. *)
Lemma grab_data_inv {W B : Type} (api : FlightRadar24API W B) (s : State W) :
  exists res s1 tr1,
    collect api {| world := world s; self := begin_cycle (self s) |}
      = (res, s1, tr1) /\
    _grab_data api s
      = (inr tt, {| world := world s1; self := end_cycle (self s1) res |},
         ev_store (begin_cycle (self s))
           :: tr1 ++ end_events (self s1) res)%list.
Proof.
  rewrite grab_data_run.
  destruct (collect api _) as [[res s1] tr1]. eauto.
Qed.

Lemma end_cycle_active (t : Tracker) (res : result (list OperationRecord)) :
  _active_runways (end_cycle t res) = _active_runways t.
Proof. destruct res; reflexivity. Qed.

Lemma stores_end_events (t : Tracker) (res : result (list OperationRecord)) :
  stores (end_events t res) = [end_cycle t res].
Proof. destruct res; reflexivity. Qed.

(** Every write of a cycle leaves the previous pair or one of the two
    fixed ones. *)
Lemma grab_data_pairs {W B : Type} (api : FlightRadar24API W B) (s : State W)
  (t' : Tracker) :
  In t' (stores (snd (_grab_data api s))) ->
  _active_runways t' = _active_runways (self s) \/
  fixed_pair (_active_runways t').
Proof.
  destruct (grab_data_inv api s) as (res & s1 & tr1 & Hc & ->).
  cbn [snd stores]. rewrite stores_app, stores_end_events.
  apply collect_inv in Hc. cbn [self world] in Hc.
  assert (Hs1 : _active_runways (self s1) = _active_runways (self s) \/
                fixed_pair (_active_runways (self s1))).
  { destruct Hc as [(_ & -> & _) | (b & w1 & fl & w2 & tr' & _ & _ & -> & _)].
    - now left.
    - right. apply determine_runway_config_pair. }
  intros [<- | Hin]; [now left |].
  apply in_app_or in Hin. destruct Hin as [Hin | [<- | []]].
  - destruct Hc as [(_ & _ & Hst & _)
                   | (b & w1 & fl & w2 & tr' & _ & _ & _ & -> & Hst & _)].
    + rewrite Hst in Hin. destruct Hin.
    + cbn [stores] in Hin. rewrite Hst in Hin.
      destruct Hin as [<- | []]. right. apply determine_runway_config_pair.
  - rewrite end_cycle_active. exact Hs1.
Qed.

Lemma observable_pair {W B : Type} (api : FlightRadar24API W B) (t : Tracker) :
  observable api t -> fixed_pair (_active_runways t).
Proof.
  induction 1 as [| w t t' Hobs IH Hin | t Hobs IH].
  - now left.
  - apply grab_data_pairs in Hin. cbn [self] in Hin.
    destruct Hin as [-> | H]; assumption.
  - exact IH.
Qed.

(** The records of a completed [collect] carry runways of the pair the
    run ended with, which is the pair every attempt of the run read. *)
Lemma collect_runways {W B : Type} (api : FlightRadar24API W B) (s : State W)
  (data : list OperationRecord) (s1 : State W) (tr1 : list Event) :
  collect api s = (inr data, s1, tr1) ->
  Forall (fun r => exists flight, built_from (self s1) flight r) data.
Proof.
  intros Hc. apply collect_inv in Hc.
  destruct Hc as [([e [=]] & _)
                 | (b & w1 & fl & w2 & tr' & _ & _ & _ & _ & _ & _ & Hext)].
  destruct (Hext data eq_refl) as (added & -> & Hadded). cbn [app].
  eapply Forall_impl; [| exact Hadded].
  cbn. intros r (flight & _ & Hb). eauto.
Qed.

Lemma attempt_built {W B : Type} (api : FlightRadar24API W B)
  (flight : Flight) (data data' : list OperationRecord) (s s' : State W)
  (tr : list Event) :
  attempt api flight data s = (inr data', s', tr) ->
  data' = data \/
  exists fd, data' = (data ++ [fd])%list /\ built_from (self s) flight fd.
Proof.
  rewrite attempt_run. intros Hrun.
  destruct (fst (get_flight_details api flight (world s))) as [e | details];
    [discriminate |].
  destruct (determine_runway (self s) flight) as [e | runway] eqn:Hrw;
    [discriminate |].
  destruct (determine_operation flight None) as [operation |] eqn:Hop;
    [| injection Hrun as <- _ _; now left].
  destruct runway as [runway |]; [| injection Hrun as <- _ _; now left].
  destruct (flight_data flight operation runway details) as [e | fd] eqn:Hfd;
    [discriminate |].
  injection Hrun as <- _ _. right. exists fd. split; [reflexivity |].
  apply flight_data_inr in Hfd.
  destruct Hfd as (Hc & Ha & Hv & Hh & <- & <-).
  repeat split; assumption.
Qed.

(** A completed cycle is one that leaves the new-data flag set. *)
Lemma grab_data_completed {W B : Type} (api : FlightRadar24API W B)
  (s : State W) :
  _new_data (self (snd (fst (_grab_data api s)))) = true ->
  exists data s1 tr1,
    collect api {| world := world s; self := begin_cycle (self s) |}
      = (inr data, s1, tr1) /\
    _data (self (snd (fst (_grab_data api s)))) = data /\
    _active_runways (self (snd (fst (_grab_data api s))))
      = _active_runways (self s1).
Proof.
  destruct (grab_data_inv api s) as (res & s1 & tr1 & Hc & ->).
  cbn [fst snd self]. destruct res as [e | data]; cbn; [discriminate |].
  intros _. exists data, s1, tr1. auto.
Qed.

(** C7. The fresh tracker has the pair 28L/28R, and every tracker a
    consumer can see has one of the two fixed pairs.  A record that an
    attempt appends carries the runway that [determine_runway] found among
    the pair active at that moment; so the records a completed cycle stores
    all carry runways of the pair that cycle selected and searched. *)
Theorem active_pair_invariant {W B : Type} (api : FlightRadar24API W B)
  (t : Tracker) :
  observable api t ->
  _active_runways init = [R28L; R28R] /\
  fixed_pair (_active_runways t) /\
  (forall (flight : Flight) (data data' : list OperationRecord) (w : W)
          (s' : State W) (tr : list Event),
      attempt api flight data {| world := w; self := t |}
        = (inr data', s', tr) ->
      data' = data \/
      exists fd, data' = (data ++ [fd])%list /\
                 determine_runway t flight = inr (Some (rec_runway fd)) /\
                 In (rec_runway fd) (_active_runways t)) /\
  (forall w : W,
      _new_data (self (snd (fst (_grab_data api
                                   {| world := w; self := t |})))) = true ->
      Forall (fun r =>
                In (rec_runway r)
                   (_active_runways
                      (self (snd (fst (_grab_data api
                                         {| world := w; self := t |}))))))
             (_data (self (snd (fst (_grab_data api
                                       {| world := w; self := t |})))))).
Proof.
  intros Hobs.
  split; [reflexivity |].
  split; [exact (observable_pair api t Hobs) |].
  split.
  - intros flight data0 data' w s' tr Hrun.
    apply attempt_built in Hrun. cbn [self] in Hrun.
    destruct Hrun as [-> | (fd & -> & Hb)]; [now left |].
    right. exists fd. split; [reflexivity |].
    destruct Hb as (_ & _ & _ & _ & _ & Hrw).
    split; [exact Hrw | exact (determine_runway_In _ _ _ Hrw)].
  - intros w Hnew.
    destruct (grab_data_completed api _ Hnew)
      as (data0 & s1 & tr1 & Hc & -> & ->).
    apply collect_runways in Hc.
    eapply Forall_impl; [| exact Hc].
    cbn. intros r (flight & Hb).
    destruct Hb as (_ & _ & _ & _ & _ & Hrw).
    exact (determine_runway_In _ _ _ Hrw).
Qed.

(** ** The retry loop *)

(** C8, as the code has it.  The loop makes at most [RETRIES] detail
    lookups for a flight and sleeps [RATE_LIMIT_DELAY] after each failed
    attempt.  An attempt fails, and is retried, exactly when a [KeyError] or
    an [AttributeError] is raised anywhere inside it: by the detail lookup
    itself, or while the record is built from a flight and a payload that
    the lookup returned (then always an [AttributeError]).  Any other
    exception, an arithmetic error of the runway search included, leaves
    the loop at once and is raised further.  An attempt
    that returns leaves the loop at once, with or without a record.  When
    the budget is spent the loop returns [data] as it was: the flight is
    left out and nothing is raised. *)
Theorem retry_policy {W B : Type} (api : FlightRadar24API W B)
  (flight : Flight) (data : list OperationRecord) (s : State W) :
  (forall (e : exn) (s1 : State W) (t1 : list Event),
      attempt api flight data s = (inl e, s1, t1) ->
      fst (get_flight_details api flight (world s)) = inl e \/
      ((exists details,
           fst (get_flight_details api flight (world s)) = inr details) /\
       determine_runway (self s) flight = inl e /\
       field_absence e = false) \/
      exists details operation runway name,
        fst (get_flight_details api flight (world s)) = inr details /\
        determine_operation flight None = Some operation /\
        determine_runway (self s) flight = inr (Some runway) /\
        flight_data flight operation runway details = inl e /\
        e = AttributeError name) /\
  (forall (n : nat) (data' : list OperationRecord) (s1 : State W)
          (t1 : list Event),
      attempt api flight data s = (inr data', s1, t1) ->
      lookup_loop api flight data (S n) s
        = (inr data', s1, [ev_get_flight_details flight])) /\
  (forall (n : nat) (e : exn) (s1 : State W) (t1 : list Event),
      attempt api flight data s = (inl e, s1, t1) ->
      field_absence e = true ->
      lookup_loop api flight data (S n) s
        = (fst (fst (lookup_loop api flight data n s1)),
           snd (fst (lookup_loop api flight data n s1)),
           ev_get_flight_details flight :: ev_sleep RATE_LIMIT_DELAY
             :: snd (lookup_loop api flight data n s1))) /\
  (forall (n : nat) (e : exn) (s1 : State W) (t1 : list Event),
      attempt api flight data s = (inl e, s1, t1) ->
      field_absence e = false ->
      lookup_loop api flight data (S n) s
        = (inl e, s1, [ev_get_flight_details flight])) /\
  (exists k : nat,
      loop_outcome flight data RETRIES (self s)
        (fst (fst (lookup_loop api flight data RETRIES s)))
        (snd (lookup_loop api flight data RETRIES s)) k) /\
  (1 <= List.length (lookups (snd (lookup_loop api flight data RETRIES s)))
     <= RETRIES)%nat.
Proof.
  assert (Htr : forall r s1 t1,
             attempt api flight data s = (r, s1, t1) ->
             t1 = [ev_get_flight_details flight]).
  { intros r s1 t1. rewrite attempt_run. now intros [= _ _ <-]. }
  split; [| split; [| split; [| split; [| split]]]].
  - intros e s1 t1. rewrite attempt_run. intros Hrun.
    destruct (fst (get_flight_details api flight (world s)))
      as [e0 | details]; [injection Hrun as <- _ _; now left |].
    destruct (determine_runway (self s) flight) as [e0 | runway] eqn:Hrw.
    { injection Hrun as <- _ _. right. left.
      split; [eauto |]. split; [reflexivity |].
      exact (determine_runway_inl _ _ _ Hrw). }
    destruct (determine_operation flight None) as [operation |];
      [| discriminate].
    destruct runway as [runway |]; [| discriminate].
    destruct (flight_data flight operation runway details)
      as [e0 | fd] eqn:Hfd; [| discriminate].
    injection Hrun as <- _ _. right. right.
    destruct (flight_data_inl _ _ _ _ _ Hfd) as [name ->].
    exists details, operation, runway, name. auto.
  - intros n data' s1 t1 Hrun. rewrite lookup_loop_S, Hrun.
    now rewrite (Htr _ _ _ Hrun).
  - intros n e s1 t1 Hrun He. rewrite lookup_loop_S, Hrun, He.
    now rewrite (Htr _ _ _ Hrun).
  - intros n e s1 t1 Hrun He. rewrite lookup_loop_S, Hrun, He.
    now rewrite (Htr _ _ _ Hrun).
  - destruct (lookup_loop api flight data RETRIES s) as [[r s'] tr] eqn:Hl.
    apply lookup_loop_inv in Hl. destruct Hl as [_ Hk]. exact Hk.
  - destruct (lookup_loop api flight data RETRIES s) as [[r s'] tr] eqn:Hl.
    apply lookup_loop_inv in Hl. destruct Hl as [_ [k Hk]].
    destruct (loop_outcome_events _ _ _ _ _ _ _ Hk) as [_ (a & Ha & Hlk)];
      [unfold RETRIES; lia |].
    cbn [snd]. rewrite Hlk, repeat_length. exact Ha.
Qed.

(** ** Configuration first, truncation after *)

Lemma determine_runway_config_active (t : Tracker) (flights : list Flight) :
  _active_runways (determine_runway_config t flights)
  = if (west_count flights <? east_count flights)%nat
    then [R10L; R10R] else [R28L; R28R].
Proof.
  unfold determine_runway_config.
  pose proof (fold_count_heading flights 0 0) as Hfold. cbn in Hfold.
  rewrite Hfold.
  destruct (west_count flights <? east_count flights)%nat; reflexivity.
Qed.

(** C9. In a cycle whose zone query answers [flights], the configuration
    is written right after the query and before any detail lookup, and it
    is the one inferred from all of [flights]; the detail lookups that
    follow are made for the first [MAX_FLIGHT_LOOKUP] (10) flights only,
    in the order of the answer. *)
Theorem config_before_truncation {W B : Type} (api : FlightRadar24API W B)
  (s : State W) (bounds : B) (w1 : W) (flights : list Flight) (w2 : W) :
  get_bounds api SFO_ZONE (world s) = (inr bounds, w1) ->
  get_flights api bounds w1 = (inr flights, w2) ->
  exists (s' : State W) (tr' tail : list Event)
         (res : result (list OperationRecord)),
    _grab_data api s
      = (inr tt, s',
         ev_store (begin_cycle (self s))
           :: ev_get_bounds SFO_ZONE
           :: ev_get_flights
           :: ev_store (determine_runway_config (begin_cycle (self s)) flights)
           :: tr' ++ tail)%list /\
    lookups tail = [] /\
    stores tail = [self s'] /\
    _active_runways (self s')
      = (if (west_count flights <? east_count flights)%nat
         then [R10L; R10R] else [R28L; R28R]) /\
    stores tr' = [] /\
    looked_up (firstn MAX_FLIGHT_LOOKUP flights) res tr' /\
    (List.length (firstn MAX_FLIGHT_LOOKUP flights) <= 10)%nat /\
    (forall data, res = inr data ->
       _data (self s') = data /\
       extends (self s') (firstn MAX_FLIGHT_LOOKUP flights) [] data).
Proof.
  intros Hb Hf.
  destruct (grab_data_inv api s) as (res & s1 & tr1 & Hc & Hrun).
  pose proof Hc as Hc'. rewrite collect_run in Hc'.
  cbn [world self] in Hc'. rewrite Hb, Hf in Hc'. cbv zeta in Hc'.
  apply collect_inv in Hc. unfold collected in Hc. cbn [world self] in Hc.
  destruct Hc as [(_ & _ & Hst & _) | Hc].
  { exfalso. injection Hc' as _ _ <-. discriminate Hst. }
  clear Hc'.
  destruct Hc as (b' & w1' & fl & w2' & tr' & Hb' & Hf' & Hself & -> & Hst
                  & Hseen & Hext).
  rewrite Hb in Hb'. injection Hb' as <- <-.
  rewrite Hf in Hf'. injection Hf' as <- <-.
  exists {| world := world s1; self := end_cycle (self s1) res |}, tr',
         (end_events (self s1) res), res.
  cbn [self].
  split; [exact Hrun |].
  split; [destruct res; reflexivity |].
  split; [apply stores_end_events |].
  split.
  { rewrite end_cycle_active, Hself. apply determine_runway_config_active. }
  split; [exact Hst |]. split; [exact Hseen |].
  split; [rewrite length_firstn; unfold MAX_FLIGHT_LOOKUP; lia |].
  intros data0 ->. split; [reflexivity |].
  destruct (Hext data0 eq_refl) as (added & -> & Hadded).
  exists added. split; [reflexivity |].
  eapply Forall_impl; [| exact Hadded].
  cbn. intros r (flight & Hin & Hbf). exists flight. split; [exact Hin |].
  unfold built_from in *. cbn. unfold determine_runway in *. cbn. exact Hbf.
Qed.

(** ** Records and the fields of their flights *)

(** C10. A record in the result of a completed cycle was built from one
    of the flights the provider answered (one of the first
    [MAX_FLIGHT_LOOKUP]), and that flight has the callsign, altitude,
    vertical speed and heading the record shows.  For a flight without one
    of these four fields the dict display raises an [AttributeError]: when
    the operation and the runway are both determined and the detail lookup
    answered, the attempt ends in that exception, which is one the loop
    retries; and however the retry loop ends for such a flight, it returns
    [data] as it was or raises, so no record of the flight is appended. *)
Theorem record_needs_all_fields {W B : Type} (api : FlightRadar24API W B) :
  (forall (flight : Flight) (data : list OperationRecord) (s : State W)
          (details : pyval) (operation : Operation) (runway : Runway),
      fst (get_flight_details api flight (world s)) = inr details ->
      determine_operation flight None = Some operation ->
      determine_runway (self s) flight = inr (Some runway) ->
      callsign flight = None \/ altitude flight = None \/
      vertical_speed flight = None \/ heading flight = None ->
      exists name,
        fst (fst (attempt api flight data s)) = inl (AttributeError name) /\
        field_absence (AttributeError name) = true) /\
  (forall (flight : Flight) (data : list OperationRecord) (n : nat)
          (s : State W),
      callsign flight = None \/ altitude flight = None \/
      vertical_speed flight = None \/ heading flight = None ->
      fst (fst (lookup_loop api flight data n s)) = inr data \/
      exists e,
        fst (fst (lookup_loop api flight data n s)) = inl e /\
        field_absence e = false) /\
  (forall s : State W,
      _new_data (self (snd (fst (_grab_data api s)))) = true ->
      exists (bounds : B) (w1 : W) (flights : list Flight) (w2 : W),
        get_bounds api SFO_ZONE (world s) = (inr bounds, w1) /\
        get_flights api bounds w1 = (inr flights, w2) /\
        Forall (fun r =>
                  exists flight,
                    In flight (firstn MAX_FLIGHT_LOOKUP flights) /\
                    callsign flight = Some (rec_callsign r) /\
                    altitude flight = Some (rec_altitude r) /\
                    vertical_speed flight = Some (rec_vertical_speed r) /\
                    heading flight = Some (rec_heading r))
               (_data (self (snd (fst (_grab_data api s)))))).
Proof.
  split; [| split].
  - intros flight data0 s details operation runway Hd Hop Hrw Hmiss.
    rewrite attempt_run, Hd, Hrw, Hop. cbn [fst].
    destruct (flight_data_missing flight operation runway details Hmiss)
      as [name ->].
    exists name. split; reflexivity.
  - intros flight data0 n s Hmiss.
    destruct (lookup_loop api flight data0 n s) as [[r s'] tr] eqn:Hl.
    apply lookup_loop_inv in Hl. destruct Hl as [_ [k Hk]]. cbn [fst].
    destruct Hk as [(_ & _ & ->) | (_ & _ & [-> | [(fd & -> & Hb) | He]])].
    + now left.
    + now left.
    + destruct Hb as (Hc & Ha & Hv & Hh & _).
      destruct Hmiss as [H | [H | [H | H]]]; congruence.
    + right. exact He.
  - intros s Hnew.
    destruct (grab_data_completed api s Hnew)
      as (data0 & s1 & tr1 & Hc & -> & _).
    apply collect_inv in Hc. cbn [world self] in Hc.
    destruct Hc as [([e [=]] & _)
                   | (b & w1 & fl & w2 & tr' & Hb & Hf & _ & _ & _ & _ & Hext)].
    exists b, w1, fl, w2.
    split; [exact Hb |]. split; [exact Hf |].
    destruct (Hext data0 eq_refl) as (added & -> & Hadded). cbn [app].
    eapply Forall_impl; [| exact Hadded].
    cbn. intros r (flight & Hin & Hc' & Ha & Hv & Hh & _).
    exists flight. auto.
Qed.


(** * Further properties of the code *)

(** ** The search loop of [determine_runway] on any list of runways *)

Lemma ltb_trans (x y z : float) :
  (x <? y)%float = true -> (y <? z)%float = true -> (x <? z)%float = true.
Proof. intros H1 H2. float_order. Qed.

Lemma ltb_not_leb (x y : float) :
  (x <? y)%float = true -> (y <=? x)%float = false.
Proof. intros H. float_order. Qed.

(** A distance the loop passed over is not below one it took up later. *)
Lemma passed_over (x y m : float) :
  (x <? m)%float = false -> (y <? m)%float = true -> (x <=? y)%float = false.
Proof. intros H1 H2. float_order. Qed.

Lemma leb_threshold_trans (x y : float) :
  (x <=? y)%float = true ->
  (y <=? RUNWAY_PROXIMITY_THRESHOLD)%float = true ->
  (x <=? RUNWAY_PROXIMITY_THRESHOLD)%float = true.
Proof. intros H1 H2. float_order. Qed.

(** Past a usable distance that is too far, every distance not below it
    is too far. *)
Lemma beyond_far (x y : float) :
  usable y = true ->
  (y <=? RUNWAY_PROXIMITY_THRESHOLD)%float = false ->
  (x <? y)%float = false ->
  (x <=? RUNWAY_PROXIMITY_THRESHOLD)%float = false.
Proof. intros H1 H2 H3. float_order. Qed.

Lemma leb_false_ltb_false (x y : float) :
  (x <=? y)%float = false -> (x <? y)%float = false.
Proof. intros H. float_order. Qed.

(** No two distinct places of one list for a first nearest runway. *)
Lemma nearest_once (x y : float) :
  usable x = true -> usable y = true ->
  (x <=? y)%float = false -> (y <? x)%float = false -> False.
Proof. intros H1 H2 H3 H4. float_order. Qed.

Section SearchLoop.

Variables la lo : float.

(** The distances as the loop measured them. *)
Variable dist : Runway -> float.

(** What the loop leaves in [(closest_runway, min_distance)] when every
    measurement returns: the accumulator it started from when no runway was
    strictly nearer, and otherwise the first runway of least distance. *)
Lemma search_spec (active : list Runway) (c : option Runway) (m : float) :
  (forall r, In r active -> distance la lo r = inr (dist r)) ->
  (search la lo active (c, m) = inr (c, m) /\
   forall r, In r active -> (dist r <? m)%float = false) \/
  (exists pre r post,
      active = (pre ++ r :: post)%list /\
      search la lo active (c, m) = inr (Some r, dist r) /\
      (dist r <? m)%float = true /\
      (forall r', In r' pre -> (dist r' <=? dist r)%float = false) /\
      (forall r', In r' post -> (dist r' <? dist r)%float = false)).
Proof.
  revert c m.
  induction active as [| r0 rest IH]; intros c m Hdist.
  - left. split; [reflexivity | intros r []].
  - assert (Hrest : forall r, In r rest -> distance la lo r = inr (dist r))
      by (intros r Hin; apply Hdist; now right).
    cbn [search]. rewrite (Hdist r0 (or_introl eq_refl)), bind_inr.
    unfold closer.
    destruct (dist r0 <? m)%float eqn:Hlt.
    + destruct (IH (Some r0) (dist r0) Hrest)
        as [[Heq Hall] | (pre & r & post & -> & Heq & Hr & Hpre & Hpost)].
      * right. exists [], r0, rest. cbn [app].
        split; [reflexivity |]. split; [exact Heq |].
        split; [exact Hlt |]. split; [intros r' [] | exact Hall].
      * right. exists (r0 :: pre), r, post.
        split; [reflexivity |]. split; [exact Heq |].
        split; [exact (ltb_trans _ _ _ Hr Hlt) |].
        split; [| exact Hpost].
        intros r' [<- | Hin];
          [exact (ltb_not_leb _ _ Hr) | exact (Hpre r' Hin)].
    + destruct (IH c m Hrest)
        as [[Heq Hall] | (pre & r & post & -> & Heq & Hr & Hpre & Hpost)].
      * left. split; [exact Heq |].
        intros r [<- | Hin]; [exact Hlt | exact (Hall r Hin)].
      * right. exists (r0 :: pre), r, post.
        split; [reflexivity |]. split; [exact Heq |].
        split; [exact Hr |]. split; [| exact Hpost].
        intros r' [<- | Hin];
          [exact (passed_over _ _ _ Hlt Hr) | exact (Hpre r' Hin)].
Qed.

(** Two ways of cutting one list around an element. *)
Lemma split_twice {A : Type} (pre pre' post post' : list A) (x x' : A) :
  (pre ++ x :: post = pre' ++ x' :: post')%list ->
  x = x' \/ (In x pre' /\ In x' post) \/ (In x' pre /\ In x post').
Proof.
  revert pre'.
  induction pre as [| a pre IH]; intros [| a' pre'] H; cbn in H.
  - injection H as -> _. now left.
  - injection H as -> ->. right. left.
    split; [now left | apply in_elt].
  - injection H as -> <-. right. right.
    split; [now left | apply in_elt].
  - injection H as -> H. apply IH in H.
    destruct H as [H | [[H1 H2] | [H1 H2]]]; [now left | |].
    + right. left. split; [now right | exact H2].
    + right. right. split; [now right | exact H2].
Qed.

End SearchLoop.

(** X1. For a flight with a position and any list of active runways whose
    distances the platform computes, [determine_runway] answers [r] exactly
    when [r] stands in the list at a place where its computed distance is at
    most 0.01, no runway listed before it has a distance at or below that
    of [r], and no runway listed after it has a distance below that of
    [r]. *)
Theorem determine_runway_first_nearest (self : Tracker) (flight : Flight)
  (la lo : float) (dist : Runway -> float) (r : Runway) :
  latitude flight = Some la ->
  longitude flight = Some lo ->
  (forall r', In r' (_active_runways self) ->
              distance la lo r' = inr (dist r')) ->
  (determine_runway self flight = inr (Some r) <->
   exists pre post,
     _active_runways self = (pre ++ r :: post)%list /\
     (dist r <=? RUNWAY_PROXIMITY_THRESHOLD)%float = true /\
     (forall r', In r' pre -> (dist r' <=? dist r)%float = false) /\
     (forall r', In r' post -> (dist r' <? dist r)%float = false)).
Proof.
  intros Hla Hlo Hdist. unfold determine_runway. rewrite Hla, Hlo.
  destruct (search_spec la lo dist (_active_runways self) None infinity Hdist)
    as [[-> Hall] | (pre0 & r0 & post0 & Hact & -> & Hr0 & Hpre & Hpost)];
    rewrite bind_inr.
  - replace (infinity <=? RUNWAY_PROXIMITY_THRESHOLD)%float with false
      by reflexivity.
    split; [discriminate |].
    intros (pre & post & Hact & Hle & _).
    specialize (Hall r). rewrite Hact in Hall.
    specialize (Hall (in_elt r pre post)).
    apply leb_threshold_usable in Hle. unfold usable in Hle. congruence.
  - split.
    + destruct (dist r0 <=? RUNWAY_PROXIMITY_THRESHOLD)%float eqn:Hle;
        [| discriminate].
      intros [= <-]. exists pre0, post0. auto.
    + intros (pre & post & Hact' & Hle & Hpre' & Hpost').
      rewrite Hact in Hact'.
      pose proof (leb_threshold_usable _ Hle) as Hu.
      destruct (split_twice _ _ _ _ _ _ Hact')
        as [-> | [[H1 H2] | [H1 H2]]].
      * rewrite Hle. reflexivity.
      * exfalso.
        exact (nearest_once _ _ Hr0 Hu (Hpre' _ H1) (Hpost _ H2)).
      * exfalso.
        exact (nearest_once _ _ Hu Hr0 (Hpre _ H1) (Hpost' _ H2)).
Qed.

(** X2. [determine_runway] answers nothing for a flight without a latitude
    or without a longitude; for a flight with a position, and runways whose
    distances the platform computes, it answers nothing exactly when no
    active threshold has a computed distance of at most 0.01 (so always
    when no runway is active). *)
Theorem determine_runway_none (self : Tracker) (flight : Flight) :
  (latitude flight = None \/ longitude flight = None ->
   determine_runway self flight = inr None) /\
  (forall (la lo : float) (dist : Runway -> float),
      latitude flight = Some la ->
      longitude flight = Some lo ->
      (forall r, In r (_active_runways self) ->
                 distance la lo r = inr (dist r)) ->
      (determine_runway self flight = inr None <->
       forall r, In r (_active_runways self) ->
                 (dist r <=? RUNWAY_PROXIMITY_THRESHOLD)%float = false)).
Proof.
  split; [apply determine_runway_missing |].
  intros la lo dist Hla Hlo Hdist. unfold determine_runway. rewrite Hla, Hlo.
  destruct (search_spec la lo dist (_active_runways self) None infinity Hdist)
    as [[-> Hall] | (pre0 & r0 & post0 & Hact & -> & Hr0 & Hpre & Hpost)];
    rewrite bind_inr.
  - replace (infinity <=? RUNWAY_PROXIMITY_THRESHOLD)%float with false
      by reflexivity.
    split; [| reflexivity].
    intros _ r Hin. specialize (Hall r Hin).
    destruct (dist r <=? RUNWAY_PROXIMITY_THRESHOLD)%float eqn:Hle;
      [| reflexivity].
    apply leb_threshold_usable in Hle. unfold usable in Hle. congruence.
  - destruct (dist r0 <=? RUNWAY_PROXIMITY_THRESHOLD)%float eqn:Hle; split.
    + discriminate.
    + intros Hfar. specialize (Hfar r0). rewrite Hact in Hfar.
      specialize (Hfar (in_elt r0 pre0 post0)). congruence.
    + intros _ r. rewrite Hact. intros Hin. apply in_app_or in Hin.
      destruct Hin as [Hin | [<- | Hin]].
      * apply (beyond_far _ _ Hr0 Hle).
        apply leb_false_ltb_false. exact (Hpre r Hin).
      * exact Hle.
      * exact (beyond_far _ _ Hr0 Hle (Hpost r Hin)).
    + reflexivity.
Qed.

(** ** The majority vote of [determine_runway_config] *)

Lemma determine_runway_config_eq (self : Tracker) (flights : list Flight) :
  determine_runway_config self flights
  = set_active_runways self
      (if (west_count flights <? east_count flights)%nat
       then [R10L; R10R] else [R28L; R28R]).
Proof.
  unfold determine_runway_config.
  pose proof (fold_count_heading flights 0 0) as Hfold. cbn in Hfold.
  rewrite Hfold.
  destruct (west_count flights <? east_count flights)%nat; reflexivity.
Qed.

Lemma filter_length_permutation {A : Type} (p : A -> bool) (l l' : list A) :
  Permutation l l' ->
  List.length (filter p l) = List.length (filter p l').
Proof.
  induction 1 as [| x l l' _ IH | x y l | l l' l'' _ IH1 _ IH2].
  - reflexivity.
  - cbn. destruct (p x); cbn; congruence.
  - cbn. destruct (p x), (p y); reflexivity.
  - congruence.
Qed.

(** X4. The pair that [determine_runway_config] selects depends on the
    flights only as a collection, not on their order, and not on the pair
    that was active before. *)
Theorem determine_runway_config_permutation (self : Tracker)
  (flights flights' : list Flight) (pair : list Runway) :
  Permutation flights flights' ->
  determine_runway_config (set_active_runways self pair) flights'
  = determine_runway_config self flights.
Proof.
  intros Hperm. rewrite !determine_runway_config_eq.
  unfold west_count, east_count.
  rewrite (filter_length_permutation (heading_in in_west_band) _ _ Hperm).
  rewrite (filter_length_permutation (heading_in in_east_band) _ _ Hperm).
  reflexivity.
Qed.

Lemma determine_runway_config_permutation_witness :
  determine_runway_config (set_active_runways init [R10L; R10R])
                          [westbound; eastbound; eastbound]
  = determine_runway_config init [eastbound; eastbound; westbound].
Proof.
  apply determine_runway_config_permutation.
  apply Permutation_sym. apply (Permutation_cons_append [eastbound; eastbound]).
Defined.

Lemma filter_counted (band : Z -> bool) (flights : list Flight) :
  (forall flight, heading_in band flight = true -> counted flight = true) ->
  filter (heading_in band) (filter counted flights)
  = filter (heading_in band) flights.
Proof.
  intros Hsub.
  induction flights as [| flight rest IH]; [reflexivity |].
  cbn [filter].
  destruct (counted flight) eqn:Hc; cbn [filter].
  - rewrite IH. reflexivity.
  - destruct (heading_in band flight) eqn:Hb; [| exact IH].
    rewrite (Hsub _ Hb) in Hc. discriminate.
Qed.

(** X5. Flights without a heading and flights whose heading is in neither
    band have no say: dropping them from the list leaves the result of
    [determine_runway_config] as it is, and a list made of such flights
    only (the empty list for one) selects 28L/28R. *)
Theorem determine_runway_config_counted (self : Tracker)
  (flights : list Flight) :
  determine_runway_config self (filter counted flights)
  = determine_runway_config self flights /\
  (forallb (fun flight => negb (counted flight)) flights = true ->
   _active_runways (determine_runway_config self flights) = [R28L; R28R]).
Proof.
  assert (Heq : determine_runway_config self (filter counted flights)
                = determine_runway_config self flights).
  { rewrite !determine_runway_config_eq. unfold west_count, east_count.
    rewrite !filter_counted; [reflexivity | |];
      intros flight H; unfold counted; rewrite H;
      [apply orb_true_r | reflexivity]. }
  split; [exact Heq |].
  intros Hnone. rewrite <- Heq.
  assert (filter counted flights = []) as ->.
  { clear Heq. induction flights as [| flight rest IH]; [reflexivity |].
    cbn in Hnone |- *. apply andb_true_iff in Hnone.
    destruct Hnone as [Hf Hrest].
    destruct (counted flight); [discriminate | exact (IH Hrest)]. }
  reflexivity.
Qed.

Lemma determine_runway_config_counted_witness :
  _active_runways
    (determine_runway_config init [southbound; landing_flight; southbound])
  = _active_runways (determine_runway_config init [landing_flight]) /\
  _active_runways
    (determine_runway_config (set_active_runways init [R10L; R10R])
       [southbound; southbound])
  = [R28L; R28R].
Proof.
  split.
  - rewrite <- (proj1 (determine_runway_config_counted init
                         [southbound; landing_flight; southbound])).
    reflexivity.
  - apply (proj2 (determine_runway_config_counted _ [southbound; southbound])).
    reflexivity.
Defined.

(** X6. Two batches of flights that each select the same pair select that
    pair together. *)
Theorem determine_runway_config_batches (self : Tracker)
  (batch1 batch2 : list Flight) (pair : list Runway) :
  _active_runways (determine_runway_config self batch1) = pair ->
  _active_runways (determine_runway_config self batch2) = pair ->
  _active_runways (determine_runway_config self (batch1 ++ batch2)) = pair.
Proof.
  rewrite !determine_runway_config_eq. cbn [set_active_runways _active_runways].
  unfold west_count, east_count.
  rewrite !filter_app, !length_app.
  destruct (Nat.ltb_spec
              (List.length (filter (heading_in in_west_band) batch1))
              (List.length (filter (heading_in in_east_band) batch1)));
    destruct (Nat.ltb_spec
                (List.length (filter (heading_in in_west_band) batch2))
                (List.length (filter (heading_in in_east_band) batch2)));
    intros <-; try discriminate; intros _.
  - destruct (Nat.ltb_spec
                (List.length (filter (heading_in in_west_band) batch1)
                 + List.length (filter (heading_in in_west_band) batch2))
                (List.length (filter (heading_in in_east_band) batch1)
                 + List.length (filter (heading_in in_east_band) batch2)));
      [reflexivity | lia].
  - destruct (Nat.ltb_spec
                (List.length (filter (heading_in in_west_band) batch1)
                 + List.length (filter (heading_in in_west_band) batch2))
                (List.length (filter (heading_in in_east_band) batch1)
                 + List.length (filter (heading_in in_east_band) batch2)));
      [lia | reflexivity].
Qed.

Lemma determine_runway_config_batches_witness :
  _active_runways
    (determine_runway_config init
       ([eastbound] ++ [eastbound; westbound; eastbound])%list)
  = [R10L; R10R].
Proof.
  apply determine_runway_config_batches; reflexivity.
Defined.

(** ** The record built from a flight and a detail payload *)

(** Case analysis on what a [.get] chain meets: optional fields, payload
    values and dict lookups, never a compound expression. *)
Ltac case_payload :=
  repeat (cbn;
          match goal with
          | |- context [match ?x with _ => _ end] =>
              first [ is_var x
                    | lazymatch x with
                      | assoc _ _ => idtac
                      end ];
              destruct x
          end).

Lemma flight_data_gettable (flight : Flight) (operation : Operation)
  (runway : Runway) (details : pyval) (fd : OperationRecord) :
  flight_data flight operation runway details = inr fd ->
  gettable details ["aircraft"; "model"; "code"] = true /\
  gettable details ["airline"; "name"] = true /\
  rec_aircraft fd
    = dig details ["aircraft"; "model"; "code"] (PyStr "Unknown") /\
  rec_airline fd = dig details ["airline"; "name"] (PyStr "Unknown").
Proof.
  unfold flight_data, getattr, py_get, dig.
  destruct (callsign flight); [| discriminate].
  destruct (altitude flight); [| case_payload; discriminate].
  destruct (vertical_speed flight); [| case_payload; discriminate].
  destruct (heading flight); [| case_payload; discriminate].
  case_payload; try discriminate; intros [= <-]; cbn; auto.
Qed.

Lemma flight_data_success (flight : Flight) (operation : Operation)
  (runway : Runway) (details : pyval) (cs : string) (alt vs hd : Z) :
  callsign flight = Some cs ->
  altitude flight = Some alt ->
  vertical_speed flight = Some vs ->
  heading flight = Some hd ->
  gettable details ["aircraft"; "model"; "code"] = true ->
  gettable details ["airline"; "name"] = true ->
  exists fd, flight_data flight operation runway details = inr fd.
Proof.
  intros Hc Ha Hv Hh.
  unfold flight_data, getattr, py_get. rewrite Hc, Ha, Hv, Hh.
  case_payload; cbn; intros H1 H2; try discriminate; eauto.
Qed.

(** X7. Building the record succeeds exactly when the flight has a
    callsign, an altitude, a vertical speed and a heading and every value
    that a [.get] is called on (the payload, its "aircraft" entry, the
    "model" entry of that, its "airline" entry) is a dict; absent keys do
    no harm.  Whenever it fails, it raises an [AttributeError]. *)
Theorem flight_data_succeeds_iff (flight : Flight) (operation : Operation)
  (runway : Runway) (details : pyval) :
  ((exists fd, flight_data flight operation runway details = inr fd) <->
   callsign flight <> None /\
   altitude flight <> None /\
   vertical_speed flight <> None /\
   heading flight <> None /\
   gettable details ["aircraft"; "model"; "code"] = true /\
   gettable details ["airline"; "name"] = true) /\
  (forall e, flight_data flight operation runway details = inl e ->
             exists name, e = AttributeError name).
Proof.
  split; [split |].
  - intros [fd Hfd].
    destruct (flight_data_gettable _ _ _ _ _ Hfd) as (Hg1 & Hg2 & _).
    apply flight_data_inr in Hfd. destruct Hfd as (Hc & Ha & Hv & Hh & _).
    rewrite Hc, Ha, Hv, Hh. repeat split; try discriminate; assumption.
  - intros (Hc & Ha & Hv & Hh & Hg1 & Hg2).
    destruct (callsign flight) as [cs |] eqn:Ec; [| contradiction].
    destruct (altitude flight) as [alt |] eqn:Ea; [| contradiction].
    destruct (vertical_speed flight) as [vs |] eqn:Ev; [| contradiction].
    destruct (heading flight) as [hd |] eqn:Eh; [| contradiction].
    exact (flight_data_success flight operation runway details
             cs alt vs hd Ec Ea Ev Eh Hg1 Hg2).
  - intros e. apply flight_data_inl.
Qed.

(** X8. A record that was built shows the flight's callsign, altitude,
    vertical speed and heading, the operation and the runway it was given,
    and as aircraft and airline the values at aircraft.model.code and
    airline.name of the payload, with "Unknown" in place of a value whose
    key, or a key above it, is absent. *)
Theorem flight_data_fields (flight : Flight) (operation : Operation)
  (runway : Runway) (details : pyval) (fd : OperationRecord) :
  flight_data flight operation runway details = inr fd ->
  callsign flight = Some (rec_callsign fd) /\
  altitude flight = Some (rec_altitude fd) /\
  vertical_speed flight = Some (rec_vertical_speed fd) /\
  heading flight = Some (rec_heading fd) /\
  rec_operation fd = operation /\
  rec_runway fd = runway /\
  rec_aircraft fd
    = dig details ["aircraft"; "model"; "code"] (PyStr "Unknown") /\
  rec_airline fd = dig details ["airline"; "name"] (PyStr "Unknown") /\
  (at_path details ["aircraft"; "model"; "code"] = None ->
   rec_aircraft fd = PyStr "Unknown") /\
  (at_path details ["airline"; "name"] = None ->
   rec_airline fd = PyStr "Unknown").
Proof.
  intros Hfd.
  destruct (flight_data_gettable _ _ _ _ _ Hfd) as (_ & _ & Hac & Hal).
  apply flight_data_inr in Hfd.
  destruct Hfd as (Hc & Ha & Hv & Hh & Hop & Hrw).
  do 8 (split; [assumption |]).
  split.
  - intros Hnone. rewrite Hac. unfold dig. now rewrite Hnone.
  - intros Hnone. rewrite Hal. unfold dig. now rewrite Hnone.
Qed.

Lemma flight_data_fields_witness :
  exists fd,
    flight_data landing_flight Landing R28L bare_details = inr fd /\
    rec_callsign fd = "UAL123" /\
    rec_aircraft fd = PyStr "Unknown" /\
    rec_airline fd = PyStr "Unknown".
Proof.
  eexists. split; [reflexivity |].
  destruct (flight_data_fields landing_flight Landing R28L bare_details _
              eq_refl)
    as (Hc & _ & _ & _ & _ & _ & _ & _ & Hac & Hal).
  split; [reflexivity |].
  split; [exact (Hac eq_refl) | exact (Hal eq_refl)].
Defined.

(** ** What a cycle costs and what it keeps *)

Lemma sleeps_app (t1 t2 : list Event) :
  sleeps (t1 ++ t2) = (sleeps t1 ++ sleeps t2)%list.
Proof.
  induction t1 as [| e t1 IH]; [reflexivity |].
  destruct e; cbn; rewrite IH; reflexivity.
Qed.

Lemma sleeps_retry_trace (flight : Flight) (k : nat) :
  sleeps (retry_trace flight k) = repeat RATE_LIMIT_DELAY k.
Proof. induction k; cbn; congruence. Qed.

Lemma subseq_length {A : Type} (l1 l2 : list A) :
  subseq l1 l2 -> (List.length l1 <= List.length l2)%nat.
Proof. induction 1; cbn; lia. Qed.

Lemma subseq_firstn_length {A : Type} (l1 l2 : list A) (n : nat) :
  subseq l1 (firstn n l2) -> (List.length l1 <= n)%nat.
Proof.
  intros H. apply subseq_length in H.
  rewrite length_firstn in H. lia.
Qed.

(** The sleeps and lookups of one run of the retry loop. *)
Lemma loop_outcome_cost (flight : Flight) (data : list OperationRecord)
  (n : nat) (t : Tracker) (res : result (list OperationRecord))
  (tr : list Event) (k : nat) :
  loop_outcome flight data n t res tr k ->
  (0 < n)%nat ->
  sleeps tr = repeat RATE_LIMIT_DELAY k /\
  (k <= List.length (lookups tr) <= n)%nat /\
  (k = 0%nat -> lookups tr = [flight]).
Proof.
  intros [(-> & -> & ->) | (Hlt & -> & Hres)] Hn.
  - rewrite sleeps_retry_trace, lookups_retry_trace, repeat_length.
    split; [reflexivity |]. split; lia.
  - rewrite sleeps_app, lookups_app, sleeps_retry_trace, lookups_retry_trace.
    cbn [sleeps lookups]. rewrite app_nil_r, length_app, repeat_length.
    cbn [List.length].
    split; [reflexivity |]. split; [lia |].
    intros ->. reflexivity.
Qed.

Section CycleCost.

Context {W B : Type}.
Variable api : FlightRadar24API W B.

(** The loop over the flights: what it sleeps and looks up. *)
Lemma for_each_cost (flights : list Flight) (data : list OperationRecord)
  (s : State W) (res : result (list OperationRecord)) (s' : State W)
  (tr : list Event) :
  for_each api flights data s = (res, s', tr) ->
  Forall (eq RATE_LIMIT_DELAY) (sleeps tr) /\
  (List.length (sleeps tr) <= List.length (lookups tr)
   <= RETRIES * List.length flights)%nat /\
  (sleeps tr = [] ->
   exists rest, flights = (lookups tr ++ rest)%list /\
                (forall data', res = inr data' -> rest = [])).
Proof.
  revert data s res s' tr.
  induction flights as [| flight rest IH]; intros data s res s' tr Hrun.
  - cbn in Hrun. unfold M_ret in Hrun. injection Hrun as <- <- <-.
    cbn. split; [constructor |]. split; [lia |].
    intros _. exists []. auto.
  - rewrite for_each_cons in Hrun.
    destruct (lookup_loop api flight data RETRIES s)
      as [[r1 s1] t1] eqn:Hloop.
    apply lookup_loop_inv in Hloop. destruct Hloop as [_ [k Hk]].
    destruct (loop_outcome_cost _ _ _ _ _ _ _ Hk) as (Hsl & Hlen & Hk0);
      [unfold RETRIES; lia |].
    assert (Hall1 : Forall (eq RATE_LIMIT_DELAY) (sleeps t1)).
    { rewrite Hsl. apply Forall_forall. intros z Hz.
      symmetry. exact (repeat_spec _ _ _ Hz). }
    assert (Hlen1 : List.length (sleeps t1) = k)
      by (rewrite Hsl; apply repeat_length).
    destruct r1 as [e | data1].
    + injection Hrun as <- <- <-.
      split; [exact Hall1 |]. split; [cbn [List.length]; lia |].
      intros Hnil. rewrite Hnil in Hlen1. cbn in Hlen1.
      rewrite (Hk0 (eq_sym Hlen1)). exists rest.
      split; [reflexivity | discriminate].
    + destruct (for_each api rest data1 s1) as [[r2 s2] t2] eqn:Hrest.
      cbn [fst snd] in Hrun. injection Hrun as <- <- <-.
      apply IH in Hrest. destruct Hrest as (Hall2 & Hlen2 & Hnil2).
      rewrite sleeps_app, lookups_app, !length_app.
      split; [apply Forall_app; split; assumption |].
      split; [cbn [List.length]; lia |].
      intros Hnil. apply app_eq_nil in Hnil. destruct Hnil as [Hn1 Hn2].
      rewrite Hn1 in Hlen1. cbn in Hlen1.
      rewrite (Hk0 (eq_sym Hlen1)).
      destruct (Hnil2 Hn2) as (rest' & -> & Hdone).
      exists rest'. split; [reflexivity | exact Hdone].
Qed.

(** The records the loop adds come from a subsequence of its flights, one
    record for each flight of the subsequence, in that order. *)
Lemma for_each_subseq (flights : list Flight) (data : list OperationRecord)
  (s : State W) (data' : list OperationRecord) (s' : State W)
  (tr : list Event) :
  for_each api flights data s = (inr data', s', tr) ->
  exists fs added,
    subseq fs flights /\
    data' = (data ++ added)%list /\
    Forall2 (built_from (self s)) fs added.
Proof.
  revert data s data' s' tr.
  induction flights as [| flight rest IH]; intros data s data' s' tr Hrun.
  - cbn in Hrun. unfold M_ret in Hrun. injection Hrun as <- <- <-.
    exists [], []. rewrite app_nil_r.
    split; [constructor |]. split; [reflexivity | constructor].
  - rewrite for_each_cons in Hrun.
    destruct (lookup_loop api flight data RETRIES s)
      as [[r1 s1] t1] eqn:Hloop.
    apply lookup_loop_inv in Hloop. destruct Hloop as [Hself [k Hk]].
    destruct r1 as [e | data1]; [discriminate |].
    destruct (for_each api rest data1 s1) as [[r2 s2] t2] eqn:Hrest.
    cbn [fst snd] in Hrun. injection Hrun as -> <- <-.
    apply IH in Hrest.
    destruct Hrest as (fs & added & Hsub & -> & Hall).
    rewrite Hself in Hall.
    destruct (loop_outcome_data _ _ _ _ _ _ _ Hk) as [-> | (fd & -> & Hfd)].
    + exists fs, added.
      split; [constructor; exact Hsub |]. split; [reflexivity | exact Hall].
    + exists (flight :: fs), (fd :: added).
      split; [constructor; exact Hsub |].
      split; [now rewrite <- app_assoc |].
      constructor; assumption.
Qed.

(** [collect], with the run of its loop in view. *)
Lemma collect_loop (s : State W) (res : result (list OperationRecord))
  (s' : State W) (tr : list Event) :
  collect api s = (res, s', tr) ->
  (exists e,
      res = inl e /\
      self s' = self s /\
      (tr = [ev_get_bounds SFO_ZONE] /\
       fst (get_bounds api SFO_ZONE (world s)) = inl e \/
       tr = [ev_get_bounds SFO_ZONE; ev_get_flights] /\
       exists bounds w1,
         get_bounds api SFO_ZONE (world s) = (inr bounds, w1) /\
         fst (get_flights api bounds w1) = inl e)) \/
  (exists bounds w1 flights w2 tr',
      get_bounds api SFO_ZONE (world s) = (inr bounds, w1) /\
      get_flights api bounds w1 = (inr flights, w2) /\
      for_each api (firstn MAX_FLIGHT_LOOKUP flights) []
        {| world := w2; self := determine_runway_config (self s) flights |}
        = (res, s', tr') /\
      tr = ev_get_bounds SFO_ZONE :: ev_get_flights
             :: ev_store (determine_runway_config (self s) flights) :: tr').
Proof.
  rewrite collect_run. intros Hrun.
  destruct (get_bounds api SFO_ZONE (world s)) as [[e | bounds] w1] eqn:Hb.
  { injection Hrun as <- <- <-. left. exists e. cbn. auto. }
  destruct (get_flights api bounds w1) as [[e | flights] w2] eqn:Hf.
  { injection Hrun as <- <- <-. left. exists e. cbn.
    split; [reflexivity |]. split; [reflexivity |].
    right. split; [reflexivity |]. exists bounds, w1. rewrite Hf. auto. }
  cbv zeta in Hrun.
  destruct (for_each api (firstn MAX_FLIGHT_LOOKUP flights) [] _)
    as [[r s3] t3] eqn:Hloop.
  cbn [fst snd] in Hrun. injection Hrun as <- <- <-.
  right. exists bounds, w1, flights, w2, t3. auto.
Qed.

End CycleCost.

Lemma built_from_fits (t : Tracker) (flight : Flight) (r : OperationRecord) :
  built_from t flight r -> operation_fits r.
Proof.
  intros (_ & Ha & Hv & _ & Hop & _).
  unfold determine_operation in Hop. rewrite Ha, Hv in Hop.
  unfold LANDING_ALTITUDE_THRESHOLD, TAKEOFF_ALTITUDE_THRESHOLD in Hop.
  unfold operation_fits.
  destruct (Z.leb_spec (rec_altitude r) 1000),
    (Z.ltb_spec (rec_vertical_speed r) 0),
    (Z.leb_spec (rec_altitude r) 3000),
    (Z.ltb_spec 0 (rec_vertical_speed r));
    cbn in Hop; try discriminate; injection Hop as <-; lia.
Qed.

Lemma Forall2_length_eq {A C : Type} (P : A -> C -> Prop) (l1 : list A)
  (l2 : list C) :
  Forall2 P l1 l2 -> List.length l1 = List.length l2.
Proof. induction 1; cbn; congruence. Qed.

Lemma Forall2_right {A C : Type} (P : A -> C -> Prop) (Q : C -> Prop)
  (l1 : list A) (l2 : list C) :
  (forall a c, P a c -> Q c) -> Forall2 P l1 l2 -> Forall Q l2.
Proof. intros HPQ. induction 1; constructor; eauto. Qed.

(** The records of a completed [collect]: one for each flight of a
    subsequence of the first [MAX_FLIGHT_LOOKUP] flights of the answer. *)
Lemma collect_records {W B : Type} (api : FlightRadar24API W B) (s : State W)
  (data : list OperationRecord) (s1 : State W) (tr1 : list Event) :
  collect api s = (inr data, s1, tr1) ->
  exists bounds w1 flights w2 fs,
    get_bounds api SFO_ZONE (world s) = (inr bounds, w1) /\
    get_flights api bounds w1 = (inr flights, w2) /\
    subseq fs (firstn MAX_FLIGHT_LOOKUP flights) /\
    Forall2 (built_from (self s1)) fs data.
Proof.
  intros Hc. apply collect_loop in Hc.
  destruct Hc as [(e & [=] & _)
                 | (b & w1 & fl & w2 & tr' & Hb & Hf & Hloop & _)].
  pose proof (for_each_inv api _ _ _ _ _ _ Hloop) as (Hself & _).
  apply for_each_subseq in Hloop.
  destruct Hloop as (fs & added & Hsub & -> & Hall).
  exists b, w1, fl, w2, fs. rewrite Hself. cbn [app self] in *. auto.
Qed.

(** The result shown by a write of a cycle: the one from before the
    cycle, or the one [collect] returned. *)
Lemma grab_data_stores_data {W B : Type} (api : FlightRadar24API W B)
  (s : State W) (t' : Tracker) :
  In t' (stores (snd (_grab_data api s))) ->
  _data t' = _data (self s) \/
  exists data s1 tr1,
    collect api {| world := world s; self := begin_cycle (self s) |}
      = (inr data, s1, tr1) /\
    _data t' = data.
Proof.
  destruct (grab_data_inv api s) as (res & s1 & tr1 & Hc & ->).
  cbn [snd stores]. rewrite stores_app, stores_end_events.
  pose proof (collect_stores api _ _ _ _ Hc) as Hst. cbn [self] in Hst.
  inversion Hst as [| t0 l0 [Hd1 _] Hrest]; subst.
  intros [<- | Hin]; [now left |].
  apply in_app_or in Hin. destruct Hin as [Hin | [<- | []]].
  - left. rewrite Forall_forall in Hrest.
    destruct (Hrest _ Hin) as [Hd _]. exact Hd.
  - destruct res as [e | data]; cbn.
    + left. exact Hd1.
    + right. exists data, s1, tr1. auto.
Qed.

(** X9. Whatever the provider does, every record that a consumer can ever
    read fits its operation (a Landing has altitude <= 1000 and a negative
    vertical speed, a Takeoff has altitude <= 3000 and a positive one), and
    the result never holds more than [MAX_FLIGHT_LOOKUP] records. *)
Theorem observable_data {W B : Type} (api : FlightRadar24API W B)
  (t : Tracker) :
  observable api t ->
  Forall operation_fits (_data t) /\
  (List.length (_data t) <= MAX_FLIGHT_LOOKUP)%nat.
Proof.
  induction 1 as [| w t t' Hobs IH Hin | t Hobs IH].
  - cbn. split; [constructor | lia].
  - apply grab_data_stores_data in Hin. cbn [self world] in Hin.
    destruct Hin as [-> | (data0 & s1 & tr1 & Hc & ->)]; [exact IH |].
    apply collect_records in Hc.
    destruct Hc as (b & w1 & fl & w2 & fs & _ & _ & Hsub & Hall).
    split.
    + eapply Forall2_right; [| exact Hall].
      intros f r. apply built_from_fits.
    + rewrite <- (Forall2_length_eq _ _ _ Hall).
      exact (subseq_firstn_length _ _ _ Hsub).
  - exact IH.
Qed.

(** X10. The result of a completed cycle follows the provider's answer:
    its records were built, in order, from a subsequence of the first
    [MAX_FLIGHT_LOOKUP] flights, one record for each flight of the
    subsequence and none for the others. *)
Theorem result_follows_flights {W B : Type} (api : FlightRadar24API W B)
  (s : State W) (bounds : B) (w1 : W) (flights : list Flight) (w2 : W) :
  get_bounds api SFO_ZONE (world s) = (inr bounds, w1) ->
  get_flights api bounds w1 = (inr flights, w2) ->
  _new_data (self (snd (fst (_grab_data api s)))) = true ->
  exists fs : list Flight,
    subseq fs (firstn MAX_FLIGHT_LOOKUP flights) /\
    Forall2 (built_from (self (snd (fst (_grab_data api s)))))
            fs (_data (self (snd (fst (_grab_data api s))))).
Proof.
  intros Hb Hf Hnew.
  destruct (grab_data_completed api s Hnew)
    as (data0 & s1 & tr1 & Hc & Hd & Hact).
  apply collect_records in Hc. cbn [world self] in Hc.
  destruct Hc as (b' & w1' & fl & w2' & fs & Hb' & Hf' & Hsub & Hall).
  rewrite Hb in Hb'. injection Hb' as <- <-.
  rewrite Hf in Hf'. injection Hf' as <- <-.
  exists fs. split; [exact Hsub |]. rewrite Hd.
  eapply Forall2_impl; [| exact Hall].
  intros f r (H1 & H2 & H3 & H4 & H5 & H6).
  repeat (split; [assumption |]).
  unfold determine_runway in *. rewrite Hact. exact H6.
Qed.

(** X11. Whatever the provider does, a cycle makes at most
    [MAX_FLIGHT_LOOKUP * RETRIES] (30) detail lookups, sleeps at most once
    for each lookup, and every sleep lasts [RATE_LIMIT_DELAY]. *)
Theorem grab_data_cost {W B : Type} (api : FlightRadar24API W B)
  (s : State W) :
  (List.length (lookups (snd (_grab_data api s)))
   <= MAX_FLIGHT_LOOKUP * RETRIES)%nat /\
  (List.length (sleeps (snd (_grab_data api s)))
   <= List.length (lookups (snd (_grab_data api s))))%nat /\
  Forall (eq RATE_LIMIT_DELAY) (sleeps (snd (_grab_data api s))).
Proof.
  destruct (grab_data_inv api s) as (res & s1 & tr1 & Hc & ->).
  cbn [snd lookups sleeps]. rewrite lookups_app, sleeps_app.
  assert (Hend : lookups (end_events (self s1) res) = [] /\
                 sleeps (end_events (self s1) res) = [])
    by (destruct res; split; reflexivity).
  destruct Hend as [-> ->]. rewrite !app_nil_r.
  apply collect_loop in Hc. cbn [world self] in Hc.
  destruct Hc as [(e & _ & _ & [[-> _] | [-> _]])
                 | (b & w1 & fl & w2 & tr' & _ & _ & Hloop & ->)].
  - cbn. split; [lia |]. split; [lia | constructor].
  - cbn. split; [lia |]. split; [lia | constructor].
  - cbn [lookups sleeps].
    apply for_each_cost in Hloop. destruct Hloop as (Hall & Hlen & _).
    rewrite length_firstn in Hlen.
    split; [| split; [lia | exact Hall]].
    unfold MAX_FLIGHT_LOOKUP, RETRIES in *. lia.
Qed.

(** X12. A cycle that completes without sleeping looked up the first
    [MAX_FLIGHT_LOOKUP] flights of the answer once each, in the order of
    the answer, and nothing else. *)
Theorem lookups_without_retry {W B : Type} (api : FlightRadar24API W B)
  (s : State W) (bounds : B) (w1 : W) (flights : list Flight) (w2 : W) :
  get_bounds api SFO_ZONE (world s) = (inr bounds, w1) ->
  get_flights api bounds w1 = (inr flights, w2) ->
  _new_data (self (snd (fst (_grab_data api s)))) = true ->
  sleeps (snd (_grab_data api s)) = [] ->
  lookups (snd (_grab_data api s)) = firstn MAX_FLIGHT_LOOKUP flights.
Proof.
  intros Hb Hf Hnew.
  destruct (grab_data_completed api s Hnew) as (data0 & s1 & tr1 & Hc & _).
  destruct (grab_data_inv api s) as (res & s1' & tr1' & Hc' & ->).
  rewrite Hc in Hc'. injection Hc' as <- <- <-.
  cbn [snd lookups sleeps end_events]. rewrite lookups_app, sleeps_app.
  cbn [lookups sleeps]. rewrite !app_nil_r.
  apply collect_loop in Hc. cbn [world self] in Hc.
  destruct Hc as [(e & [=] & _)
                 | (b & w1' & fl & w2' & tr' & Hb' & Hf' & Hloop & ->)].
  rewrite Hb in Hb'. injection Hb' as <- <-.
  rewrite Hf in Hf'. injection Hf' as <- <-.
  cbn [lookups sleeps]. intros Hnil.
  apply for_each_cost in Hloop. destruct Hloop as (_ & _ & Hdone).
  destruct (Hdone Hnil) as (rest & Heq & Hrest).
  rewrite (Hrest data0 eq_refl), app_nil_r in Heq. now rewrite Heq.
Qed.

(** ** The flags over a whole cycle *)

(** X13. Whatever the provider does, [_grab_data] returns without raising.
    Its first write sets the processing flag, every write before the last
    shows the flag set, no new data and the previous result, and the last
    write, which leaves the tracker as the cycle ends, clears the flag.  If
    the cycle ends with no new data, the result is the previous one. *)
Theorem grab_data_protocol {W B : Type} (api : FlightRadar24API W B)
  (s : State W) :
  exists (s' : State W) (tr : list Event) (earlier : list Tracker),
    _grab_data api s = (inr tt, s', tr) /\
    stores tr = (begin_cycle (self s) :: earlier ++ [self s'])%list /\
    Forall (fun t => _processing t = true /\
                     _new_data t = false /\
                     _data t = _data (self s))
           (begin_cycle (self s) :: earlier) /\
    _processing (self s') = false /\
    (_new_data (self s') = false -> _data (self s') = _data (self s)).
Proof.
  destruct (grab_data_inv api s) as (res & s1 & tr1 & Hc & Hrun).
  pose proof (collect_stores api _ _ _ _ Hc) as Hst. cbn [self] in Hst.
  inversion Hst as [| t0 l0 (Hd1 & _ & _) Hrest]; subst.
  exists {| world := world s1; self := end_cycle (self s1) res |},
         (ev_store (begin_cycle (self s))
            :: tr1 ++ end_events (self s1) res)%list,
         (stores tr1).
  split; [exact Hrun |].
  split; [cbn [stores self]; now rewrite stores_app, stores_end_events |].
  split.
  { constructor; [cbn; auto |].
    eapply Forall_impl; [| exact Hrest].
    intros t (Hd & Hn & Hp). cbn in *. auto. }
  cbn [self]. destruct res as [e | data0]; cbn.
  - split; [reflexivity |]. intros _. exact Hd1.
  - split; [reflexivity | discriminate].
Qed.

(** X14. When the zone query raises, at [get_bounds] or at [get_flights],
    the cycle looks up no flight and does not sleep, and it leaves the
    tracker as it found it but for the two flags, both false: the result and
    the active pair are untouched. *)
Theorem zone_query_failure {W B : Type} (api : FlightRadar24API W B)
  (s : State W) (e : exn) :
  fst (get_bounds api SFO_ZONE (world s)) = inl e \/
  (exists bounds w1,
      get_bounds api SFO_ZONE (world s) = (inr bounds, w1) /\
      fst (get_flights api bounds w1) = inl e) ->
  self (snd (fst (_grab_data api s)))
    = set_processing (set_new_data (self s) false) false /\
  lookups (snd (_grab_data api s)) = [] /\
  sleeps (snd (_grab_data api s)) = [] /\
  In (ev_print e) (snd (_grab_data api s)).
Proof.
  intros Hfail. rewrite grab_data_run, collect_run. cbn [world self].
  destruct Hfail as [Hb | (bounds & w1 & Hb & Hf)].
  - destruct (get_bounds api SFO_ZONE (world s)) as [[e0 | b] w1];
      cbn in Hb; [injection Hb as -> | discriminate].
    cbn. auto 10.
  - rewrite Hb.
    destruct (get_flights api bounds w1) as [[e0 | fl] w2];
      cbn in Hf; [injection Hf as -> | discriminate].
    cbn. auto 10.
Qed.

(** An exception that leaves the loop over the flights left a retry
    loop: it is none of those that are retried. *)
Lemma for_each_raises {W B : Type} (api : FlightRadar24API W B)
  (flights : list Flight) (data : list OperationRecord) (s : State W)
  (e : exn) (s' : State W) (tr : list Event) :
  for_each api flights data s = (inl e, s', tr) ->
  field_absence e = false.
Proof.
  revert data s s' tr.
  induction flights as [| flight rest IH]; intros data s s' tr Hrun.
  - cbn in Hrun. unfold M_ret in Hrun. discriminate.
  - rewrite for_each_cons in Hrun.
    destruct (lookup_loop api flight data RETRIES s)
      as [[r1 s1] t1] eqn:Hl.
    destruct r1 as [e1 | data1].
    + injection Hrun as -> _ _.
      apply lookup_loop_inv in Hl. destruct Hl as [_ [k Hk]].
      destruct Hk
        as [(_ & _ & [=]) | (_ & _ & [[=] | [(fd & [=] & _) | He]])].
      destruct He as (e' & [= <-] & He'). exact He'.
    + destruct (for_each api rest data1 s1) as [[r2 s2] t2] eqn:Hrest.
      cbn [fst snd] in Hrun. injection Hrun as -> _ _.
      exact (IH _ _ _ _ Hrest).
Qed.

(** X15. When the zone query answers but the cycle then fails, the
    tracker keeps the previous result while its active pair is already the
    one inferred from the new flights: the write of the pair is not undone.
    The stored records may then carry runways of the other pair. *)
Theorem flight_loop_failure {W B : Type} (api : FlightRadar24API W B)
  (s : State W) (bounds : B) (w1 : W) (flights : list Flight) (w2 : W) :
  get_bounds api SFO_ZONE (world s) = (inr bounds, w1) ->
  get_flights api bounds w1 = (inr flights, w2) ->
  _new_data (self (snd (fst (_grab_data api s)))) = false ->
  _data (self (snd (fst (_grab_data api s)))) = _data (self s) /\
  _active_runways (self (snd (fst (_grab_data api s))))
    = (if (west_count flights <? east_count flights)%nat
       then [R10L; R10R] else [R28L; R28R]) /\
  exists e, field_absence e = false /\
            In (ev_print e) (snd (_grab_data api s)).
Proof.
  intros Hb Hf.
  destruct (grab_data_inv api s) as (res & s1 & tr1 & Hc & ->).
  cbn [fst snd self].
  pose proof (collect_stores api _ _ _ _ Hc) as Hst. cbn [self] in Hst.
  inversion Hst as [| t0 l0 (Hd1 & _ & _) _]; subst.
  apply collect_loop in Hc. cbn [world self] in Hc.
  destruct Hc as [(e & _ & _ & [[_ Hb'] | [_ (b' & w1' & Hb' & Hf')]])
                 | (b' & w1' & fl & w2' & tr' & Hb' & Hf' & Hloop & ->)].
  - rewrite Hb in Hb'. discriminate.
  - rewrite Hb in Hb'. injection Hb' as <- <-.
    rewrite Hf in Hf'. discriminate.
  - rewrite Hb in Hb'. injection Hb' as <- <-.
    rewrite Hf in Hf'. injection Hf' as <- <-.
    destruct res as [e | data0]; cbn; [| discriminate].
    intros _. split; [exact Hd1 |].
    pose proof (for_each_inv api _ _ _ _ _ _ Hloop) as (Hself & _ & Hseen & _).
    cbn [self] in Hself. rewrite Hself.
    split; [apply determine_runway_config_active |].
    exists e. split; [exact (for_each_raises api _ _ _ _ _ _ Hloop) |].
    do 4 right. apply in_elt.
Qed.

(** ** A cycle and the tracker it starts from *)

Section Forgets.

Context {W B : Type}.
Variable api : FlightRadar24API W B.

Lemma determine_runway_active (t1 t2 : Tracker) (flight : Flight) :
  _active_runways t1 = _active_runways t2 ->
  determine_runway t1 flight = determine_runway t2 flight.
Proof. unfold determine_runway. intros ->. reflexivity. Qed.

(** The loops read nothing of the tracker but its active pair. *)
Lemma attempt_with_self (t1 t2 : Tracker) (flight : Flight)
  (data : list OperationRecord) (w : W) :
  _active_runways t1 = _active_runways t2 ->
  attempt api flight data {| world := w; self := t2 |}
  = with_self t2 (attempt api flight data {| world := w; self := t1 |}).
Proof.
  intros Hact. rewrite !attempt_run. cbn [world self].
  rewrite (determine_runway_active t1 t2 flight Hact).
  reflexivity.
Qed.

Lemma lookup_loop_with_self (t1 t2 : Tracker) (flight : Flight)
  (data : list OperationRecord) (n : nat) (w : W) :
  _active_runways t1 = _active_runways t2 ->
  lookup_loop api flight data n {| world := w; self := t2 |}
  = with_self t2 (lookup_loop api flight data n {| world := w; self := t1 |}).
Proof.
  intros Hact. revert w.
  induction n as [| n IH]; intros w; [reflexivity |].
  rewrite !lookup_loop_S, (attempt_with_self t1 t2 flight data w Hact).
  pose proof (attempt_run api flight data {| world := w; self := t1 |})
    as Hrun.
  destruct (attempt api flight data {| world := w; self := t1 |})
    as [[r [w' t']] tr].
  injection Hrun as _ _ Ht' _. cbn [self] in Ht'. subst t'.
  unfold with_self at 1. cbn [fst snd world].
  destruct r as [e | data']; [| reflexivity].
  destruct (field_absence e); [| reflexivity].
  rewrite IH. reflexivity.
Qed.

Lemma for_each_with_self (t1 t2 : Tracker) (flights : list Flight)
  (data : list OperationRecord) (w : W) :
  _active_runways t1 = _active_runways t2 ->
  for_each api flights data {| world := w; self := t2 |}
  = with_self t2 (for_each api flights data {| world := w; self := t1 |}).
Proof.
  intros Hact. revert data w.
  induction flights as [| flight rest IH]; intros data w; [reflexivity |].
  rewrite !for_each_cons, (lookup_loop_with_self t1 t2 flight data _ w Hact).
  destruct (lookup_loop api flight data RETRIES {| world := w; self := t1 |})
    as [[r1 [w1 t1']] tr1] eqn:Hl.
  apply lookup_loop_inv in Hl. destruct Hl as [Hself _].
  cbn [self] in Hself. subst t1'.
  unfold with_self at 1. cbn [fst snd world].
  destruct r1 as [e | data1]; [reflexivity |].
  rewrite IH. reflexivity.
Qed.

End Forgets.

(** X16. The course of a cycle is set by the provider, not by the tracker
    it starts from: from any two trackers and the same provider state, the
    provider ends in the same state after the same detail lookups and
    sleeps, with the same flags; and when the cycle completes, the tracker
    it leaves is the same in every field. *)
Theorem cycle_forgets_tracker {W B : Type} (api : FlightRadar24API W B)
  (w : W) (t t' : Tracker) :
  world (snd (fst (_grab_data api {| world := w; self := t' |})))
    = world (snd (fst (_grab_data api {| world := w; self := t |}))) /\
  lookups (snd (_grab_data api {| world := w; self := t' |}))
    = lookups (snd (_grab_data api {| world := w; self := t |})) /\
  sleeps (snd (_grab_data api {| world := w; self := t' |}))
    = sleeps (snd (_grab_data api {| world := w; self := t |})) /\
  _new_data (self (snd (fst (_grab_data api {| world := w; self := t' |}))))
    = _new_data (self (snd (fst (_grab_data api {| world := w; self := t |}))))
  /\
  (_new_data (self (snd (fst (_grab_data api {| world := w; self := t |}))))
     = true ->
   self (snd (fst (_grab_data api {| world := w; self := t' |})))
     = self (snd (fst (_grab_data api {| world := w; self := t |})))).
Proof.
  rewrite !grab_data_run, !collect_run. cbn [world self].
  destruct (get_bounds api SFO_ZONE w) as [[e | bounds] w1].
  { cbn. repeat split; try reflexivity. discriminate. }
  destruct (get_flights api bounds w1) as [[e | flights] w2].
  { cbn. repeat split; try reflexivity. discriminate. }
  cbv zeta.
  assert (Hact :
    _active_runways (determine_runway_config (begin_cycle t) flights)
    = _active_runways (determine_runway_config (begin_cycle t') flights))
    by (now rewrite !determine_runway_config_active).
  rewrite (for_each_with_self api _ _ _ [] w2 Hact).
  destruct (for_each api (firstn MAX_FLIGHT_LOOKUP flights) []
              {| world := w2;
                 self := determine_runway_config (begin_cycle t) flights |})
    as [[res [w3 t3]] tr] eqn:Hloop.
  apply for_each_inv in Hloop. destruct Hloop as (Hself & _).
  cbn [self] in Hself. subst t3.
  unfold with_self. cbn [fst snd world self lookups sleeps stores].
  rewrite !lookups_app, !sleeps_app.
  destruct res as [e | data0]; cbn.
  - repeat split; try reflexivity. discriminate.
  - repeat split; try reflexivity. intros _.
    unfold set_data, set_processing, set_new_data. cbn.
    now rewrite Hact.
Qed.

(** The flags shown by a write of a cycle. *)
Lemma grab_data_stores_flags {W B : Type} (api : FlightRadar24API W B)
  (s : State W) (t' : Tracker) :
  In t' (stores (snd (_grab_data api s))) ->
  _new_data t' = false \/ _processing t' = false.
Proof.
  destruct (grab_data_inv api s) as (res & s1 & tr1 & Hc & ->).
  cbn [snd stores]. rewrite stores_app, stores_end_events.
  pose proof (collect_stores api _ _ _ _ Hc) as Hst. cbn [self] in Hst.
  inversion Hst as [| t0 l0 _ Hrest]; subst.
  intros [<- | Hin]; [now left |].
  apply in_app_or in Hin. destruct Hin as [Hin | [<- | []]].
  - left. rewrite Forall_forall in Hrest.
    destruct (Hrest _ Hin) as (_ & Hn & _). exact Hn.
  - right. destruct res; reflexivity.
Qed.

(** X17. With cycles run one after the other, no tracker that a consumer
    can see has the new-data flag and the processing flag both set: new
    data is only ever announced by the write that ends a cycle. *)
Theorem observable_flags {W B : Type} (api : FlightRadar24API W B)
  (t : Tracker) :
  observable api t ->
  _new_data t = true -> _processing t = false.
Proof.
  induction 1 as [| w t t' Hobs IH Hin | t Hobs IH].
  - reflexivity.
  - apply grab_data_stores_flags in Hin.
    destruct Hin as [-> | ->]; [discriminate | reflexivity].
  - discriminate.
Qed.


End Platform.

(** * The sample runs *)

(** The runs below are those of a platform whose power is
    [rounded_pow]. *)

(** A flight standing on the 28L threshold, 28L/28R active. *)
Lemma determine_runway_on_28L (self : Tracker) (flight : Flight) :
  latitude flight = Some 37.6161%float ->
  longitude flight = Some (-122.3580)%float ->
  _active_runways self = [R28L; R28R] ->
  determine_runway rounded_pow self flight = inr (Some R28L).
Proof.
  intros Hla Hlo Hact.
  unfold determine_runway. rewrite Hla, Hlo, Hact. reflexivity.
Qed.

(** One hundredth of a degree south of the 28L threshold, as the floats
    have it: the computed distance is above 0.01. *)
Lemma determine_runway_south_of_28L :
  determine_runway rounded_pow init
    {| callsign := None;
       latitude := Some 37.6061%float;
       longitude := Some (-122.3580)%float;
       altitude := None;
       vertical_speed := None;
       heading := None |}
  = inr None.
Proof. reflexivity. Qed.

(** Between the thresholds of 10L and 10R, 10L/10R active: the computed
    distance to 10R is the lesser one. *)
Lemma determine_runway_between_10L_10R :
  determine_runway rounded_pow (set_active_runways init [R10L; R10R])
    {| callsign := None;
       latitude := Some 37.6202%float;
       longitude := Some (-122.37925)%float;
       altitude := None;
       vertical_speed := None;
       heading := None |}
  = inr (Some R10R).
Proof. reflexivity. Qed.

Lemma determine_runway_spec_witness :
  determine_runway rounded_pow init landing_flight = inr (Some R28L).
Proof.
  destruct (determine_runway_spec rounded_pow init landing_flight
              37.6161%float (-122.3580)%float R28L R28R
              eq_refl eq_refl eq_refl) as (_ & H & _).
  destruct (H _ _ eq_refl eq_refl) as (Heq & _).
  exact Heq.
Defined.

(** The zone query raises: nothing is collected. *)
Lemma collect_api_down :
  collect rounded_pow api_down {| world := 0%nat; self := begin_cycle served |}
  = (inl (OtherException "unreachable"),
     {| world := 0%nat; self := begin_cycle served |},
     [ev_get_bounds SFO_ZONE; ev_get_flights]).
Proof. reflexivity. Qed.

Lemma grab_data_failure_witness :
  exists t' : Tracker,
    _grab_data rounded_pow api_down {| world := 0%nat; self := served |}
      = (inr tt, {| world := 0%nat; self := t' |},
         [ev_store (begin_cycle served); ev_get_bounds SFO_ZONE;
          ev_get_flights; ev_print (OtherException "unreachable");
          ev_store t']) /\
    _data t' = [landing_record] /\
    _new_data t' = false /\
    _processing t' = false /\
    Forall (fun t => _data t = [landing_record])
           (stores (snd (_grab_data rounded_pow api_down
                           {| world := 0%nat; self := served |}))).
Proof.
  exact (grab_data_failure rounded_pow api_down
           {| world := 0%nat; self := served |} _ _ _ collect_api_down).
Defined.

(** One landing aircraft on the 28L threshold: one lookup, one record. *)
Lemma collect_landing :
  collect rounded_pow (api_serving [landing_flight])
          {| world := 0%nat; self := begin_cycle init |}
  = (inr [landing_record],
     {| world := 1%nat; self := begin_cycle init |},
     [ev_get_bounds SFO_ZONE; ev_get_flights;
      ev_store (begin_cycle init);
      ev_get_flight_details landing_flight]).
Proof.
  rewrite collect_run. cbn [api_serving get_bounds get_flights world self].
  cbv zeta. cbn [firstn MAX_FLIGHT_LOOKUP].
  rewrite for_each_cons. unfold RETRIES.
  rewrite lookup_loop_S, attempt_run.
  rewrite determine_runway_on_28L by reflexivity.
  reflexivity.
Qed.

Lemma grab_data_success_witness :
  exists t' : Tracker,
    _grab_data rounded_pow (api_serving [landing_flight])
               {| world := 0%nat; self := init |}
      = (inr tt, {| world := 1%nat; self := t' |},
         [ev_store (begin_cycle init); ev_get_bounds SFO_ZONE;
          ev_get_flights; ev_store (begin_cycle init);
          ev_get_flight_details landing_flight; ev_store t']) /\
    _data t' = [landing_record] /\
    _new_data t' = true /\
    _processing t' = false /\
    _active_runways t' = [R28L; R28R] /\
    Forall (fun t => _data t = [] /\
                     _new_data t = false /\
                     _processing t = true)
           [begin_cycle init; begin_cycle init].
Proof.
  exact (grab_data_success rounded_pow (api_serving [landing_flight])
           {| world := 0%nat; self := init |} _ _ _ collect_landing).
Defined.

(** The tracker that the cycle over one landing flight leaves. *)
Lemma observable_landing :
  observable rounded_pow (api_serving [landing_flight])
    (end_cycle (begin_cycle init) (inr [landing_record])).
Proof.
  apply (observable_store rounded_pow _ 0%nat init); [constructor |].
  rewrite grab_data_run. cbn [world self]. rewrite collect_landing.
  cbn. auto 10.
Qed.

Lemma active_pair_invariant_witness :
  fixed_pair
    (_active_runways (end_cycle (begin_cycle init) (inr [landing_record]))).
Proof.
  exact (proj1 (proj2 (active_pair_invariant rounded_pow _ _
                         observable_landing))).
Defined.

(** A flight on the 28L threshold without a callsign: every detail lookup
    answers in full, and every attempt is retried all the same. *)
Lemma attempt_anonymous (w : nat) :
  attempt rounded_pow (api_serving [anonymous_flight]) anonymous_flight []
          {| world := w; self := init |}
  = (inl (AttributeError "callsign"), {| world := S w; self := init |},
     [ev_get_flight_details anonymous_flight]).
Proof.
  rewrite attempt_run.
  rewrite determine_runway_on_28L by reflexivity.
  reflexivity.
Qed.

Lemma retry_policy_witness :
  lookup_loop rounded_pow (api_serving [anonymous_flight])
              anonymous_flight [] 1 {| world := 0%nat; self := init |}
  = (fst (fst (lookup_loop rounded_pow (api_serving [anonymous_flight])
                 anonymous_flight [] 0 {| world := 1%nat; self := init |})),
     snd (fst (lookup_loop rounded_pow (api_serving [anonymous_flight])
                 anonymous_flight [] 0 {| world := 1%nat; self := init |})),
     ev_get_flight_details anonymous_flight :: ev_sleep RATE_LIMIT_DELAY
       :: snd (lookup_loop rounded_pow (api_serving [anonymous_flight])
                 anonymous_flight [] 0 {| world := 1%nat; self := init |})).
Proof.
  exact (proj1 (proj2 (proj2
           (retry_policy rounded_pow (api_serving [anonymous_flight])
              anonymous_flight [] {| world := 0%nat; self := init |})))
           0%nat _ _ _ (attempt_anonymous 0) eq_refl).
Defined.

Lemma retry_without_detail_failure :
  (forall w : nat,
      get_flight_details (api_serving [anonymous_flight]) anonymous_flight w
      = (inr full_details, S w)) /\
  lookup_loop rounded_pow (api_serving [anonymous_flight])
              anonymous_flight [] RETRIES {| world := 0%nat; self := init |}
  = (inr [], {| world := 3%nat; self := init |},
     [ev_get_flight_details anonymous_flight; ev_sleep 1;
      ev_get_flight_details anonymous_flight; ev_sleep 1;
      ev_get_flight_details anonymous_flight; ev_sleep 1]) /\
  ~ retry_only_on_detail_failure rounded_pow (api_serving [anonymous_flight])
      anonymous_flight [] {| world := 0%nat; self := init |}.
Proof.
  split; [reflexivity |]. split.
  - unfold RETRIES.
    rewrite !lookup_loop_S, !attempt_anonymous. cbn [field_absence fst snd].
    rewrite !lookup_loop_S, !attempt_anonymous. cbn [field_absence fst snd].
    rewrite !lookup_loop_S, !attempt_anonymous. cbn [field_absence fst snd].
    rewrite lookup_loop_O. reflexivity.
  - intros H.
    destruct (H _ _ _ (attempt_anonymous 0) eq_refl) as [e' He'].
    discriminate He'.
Qed.

(** Ten westbound flights followed by eleven eastbound ones: the pair is
    10L/10R, which only the whole list supports, and the lookups are those
    of the ten westbound flights. *)
Lemma config_before_truncation_witness :
  _active_runways
    (self (snd (fst (_grab_data rounded_pow
                       (api_serving (repeat westbound 10
                                     ++ repeat eastbound 11)%list)
                       {| world := 0%nat; self := init |}))))
  = [R10L; R10R] /\
  lookups (snd (_grab_data rounded_pow
                  (api_serving (repeat westbound 10
                                ++ repeat eastbound 11)%list)
                  {| world := 0%nat; self := init |}))
  = repeat westbound 10.
Proof.
  split; [| reflexivity].
  destruct (config_before_truncation rounded_pow
              (api_serving (repeat westbound 10 ++ repeat eastbound 11)%list)
              {| world := 0%nat; self := init |} tt 0%nat
              (repeat westbound 10 ++ repeat eastbound 11)%list 0%nat
              eq_refl eq_refl)
    as (s' & tr' & tail & res & Heq & _ & _ & Hact & _).
  rewrite Heq. exact Hact.
Defined.

Lemma record_needs_all_fields_witness :
  exists name,
    fst (fst (attempt rounded_pow (api_serving [anonymous_flight])
                      anonymous_flight [] {| world := 0%nat; self := init |}))
      = inl (AttributeError name) /\
    field_absence (AttributeError name) = true.
Proof.
  apply (proj1 (record_needs_all_fields rounded_pow
                  (api_serving [anonymous_flight]))
           anonymous_flight [] {| world := 0%nat; self := init |}
           full_details Landing R28L).
  - reflexivity.
  - reflexivity.
  - apply determine_runway_on_28L; reflexivity.
  - left. reflexivity.
Defined.

Lemma determine_runway_first_nearest_witness :
  determine_runway rounded_pow init landing_flight = inr (Some R28L).
Proof.
  apply (proj2 (determine_runway_first_nearest rounded_pow init
                  landing_flight 37.6161%float (-122.3580)%float
                  (fun r' =>
                     match distance rounded_pow 37.6161 (-122.3580) r' with
                     | inr d => d
                     | inl _ => nan
                     end)
                  R28L eq_refl eq_refl
                  (fun r' _ => match r' with
                               | R28L | R28R | R10L | R10R => eq_refl
                               end))).
  exists [], [R28R].
  split; [reflexivity |]. split; [reflexivity |].
  split; [intros r' [] |].
  intros r' [<- | []]. reflexivity.
Defined.

Lemma determine_runway_none_witness :
  determine_runway rounded_pow init overflight = inr None.
Proof.
  apply (proj2 (proj2 (determine_runway_none rounded_pow init overflight)
                  SFO_LAT SFO_LON
                  (fun r =>
                     match distance rounded_pow SFO_LAT SFO_LON r with
                     | inr d => d
                     | inl _ => nan
                     end)
                  eq_refl eq_refl
                  (fun r _ => match r with
                              | R28L | R28R | R10L | R10R => eq_refl
                              end))).
  intros r [<- | [<- | []]]; reflexivity.
Defined.

Lemma observable_data_witness :
  Forall operation_fits [landing_record] /\
  (List.length [landing_record] <= MAX_FLIGHT_LOOKUP)%nat.
Proof.
  exact (observable_data rounded_pow _ _ observable_landing).
Defined.

(** A landing aircraft followed by one reported with a heading only. *)
Lemma collect_mixed :
  collect rounded_pow (api_serving [landing_flight; westbound])
          {| world := 0%nat; self := begin_cycle init |}
  = (inr [landing_record],
     {| world := 2%nat; self := begin_cycle init |},
     [ev_get_bounds SFO_ZONE; ev_get_flights;
      ev_store (begin_cycle init);
      ev_get_flight_details landing_flight;
      ev_get_flight_details westbound]).
Proof.
  rewrite collect_run. cbn [api_serving get_bounds get_flights world self].
  cbv zeta. cbn [firstn MAX_FLIGHT_LOOKUP].
  rewrite for_each_cons. unfold RETRIES.
  rewrite lookup_loop_S, attempt_run.
  rewrite determine_runway_on_28L by reflexivity.
  reflexivity.
Qed.

Lemma grab_data_mixed :
  _grab_data rounded_pow (api_serving [landing_flight; westbound])
             {| world := 0%nat; self := init |}
  = (inr tt,
     {| world := 2%nat;
        self := end_cycle (begin_cycle init) (inr [landing_record]) |},
     [ev_store (begin_cycle init);
      ev_get_bounds SFO_ZONE; ev_get_flights;
      ev_store (begin_cycle init);
      ev_get_flight_details landing_flight;
      ev_get_flight_details westbound;
      ev_store (end_cycle (begin_cycle init) (inr [landing_record]))]).
Proof.
  rewrite grab_data_run. cbn [world self]. rewrite collect_mixed.
  reflexivity.
Qed.

Lemma result_follows_flights_witness :
  exists fs : list Flight,
    subseq fs (firstn MAX_FLIGHT_LOOKUP [landing_flight; westbound]) /\
    Forall2
      (built_from rounded_pow
         (self (snd (fst (_grab_data rounded_pow
                            (api_serving [landing_flight; westbound])
                            {| world := 0%nat; self := init |})))))
      fs
      (_data
         (self (snd (fst (_grab_data rounded_pow
                            (api_serving [landing_flight; westbound])
                            {| world := 0%nat; self := init |}))))).
Proof.
  apply (result_follows_flights rounded_pow
           (api_serving [landing_flight; westbound])
           {| world := 0%nat; self := init |} tt 0%nat
           [landing_flight; westbound] 0%nat eq_refl eq_refl).
  rewrite grab_data_mixed. reflexivity.
Defined.

Lemma lookups_without_retry_witness :
  lookups (snd (_grab_data rounded_pow
                  (api_serving [landing_flight; westbound])
                  {| world := 0%nat; self := init |}))
  = firstn MAX_FLIGHT_LOOKUP [landing_flight; westbound].
Proof.
  apply (lookups_without_retry rounded_pow
           (api_serving [landing_flight; westbound])
           {| world := 0%nat; self := init |} tt 0%nat
           [landing_flight; westbound] 0%nat eq_refl eq_refl);
    rewrite grab_data_mixed; reflexivity.
Defined.

Lemma zone_query_failure_witness :
  self (snd (fst (_grab_data rounded_pow api_down
                    {| world := 0%nat; self := served |})))
    = set_processing (set_new_data served false) false /\
  lookups (snd (_grab_data rounded_pow api_down
                  {| world := 0%nat; self := served |}))
    = [] /\
  sleeps (snd (_grab_data rounded_pow api_down
                 {| world := 0%nat; self := served |}))
    = [] /\
  In (ev_print (OtherException "unreachable"))
     (snd (_grab_data rounded_pow api_down
             {| world := 0%nat; self := served |})).
Proof.
  apply zone_query_failure. right. exists tt, 0%nat.
  split; reflexivity.
Defined.

Lemma flight_loop_failure_witness :
  _data (self (snd (fst (_grab_data rounded_pow (api_breaking [eastbound])
                           {| world := 0%nat; self := served |}))))
    = [landing_record] /\
  _active_runways
    (self (snd (fst (_grab_data rounded_pow (api_breaking [eastbound])
                       {| world := 0%nat; self := served |}))))
    = [R10L; R10R] /\
  exists e, field_absence e = false /\
            In (ev_print e)
               (snd (_grab_data rounded_pow (api_breaking [eastbound])
                       {| world := 0%nat; self := served |})).
Proof.
  apply (flight_loop_failure rounded_pow (api_breaking [eastbound])
           {| world := 0%nat; self := served |} tt 0%nat [eastbound] 0%nat
           eq_refl eq_refl).
  reflexivity.
Defined.

Lemma observable_flags_witness :
  _processing (end_cycle (begin_cycle init) (inr [landing_record])) = false.
Proof.
  exact (observable_flags rounded_pow _ _ observable_landing eq_refl).
Defined.
